(** * Adaptive AI Tutor (tutor_app.py): prompt construction and session transcript

    A shallow embedding of the Streamlit script [tutor_app.py].  One rerun
    of the script is a computation in a small state-and-exception monad over
    a [World] holding [st.session_state], the rendered output and the record
    of calls made to the remote chat provider.  The prompt is produced by a
    model of [str.format] run on the script's [PROMPT_TEMPLATE]. *)

From Stdlib Require Import String Ascii List Bool Arith Lia.
Import ListNotations.
Open Scope string_scope.

(** ** Exceptions and results *)

(** The exceptions the script can meet.  Everything is caught by the two
    [except Exception] clauses, so only the distinction matters. *)
Inductive Exn : Type :=
| KeyError (key : string)          (* str.format: no such keyword argument *)
| IndexError                       (* str.format: positional field, no positional argument *)
| ValueError (msg : string)        (* str.format syntax; response.text without a text part *)
| AttributeError (name : string)   (* st.session_state.<name> when the key is absent *)
| ProviderError (msg : string).    (* send_message: authentication, network, quota, ... *)

Inductive Res (A : Type) : Type :=
| Ok (a : A)
| Raise (e : Exn).
Arguments Ok {A} a.
Arguments Raise {A} e.

(** ** Python strings *)

(** The double-quote character, which occurs sixteen times in the template. *)
Definition dq : string := String "034"%char EmptyString.
Definition nl : string := String "010"%char EmptyString.

(** Truthiness of a [str]: [not s] holds exactly for the empty string. *)
Definition truthy (s : string) : bool :=
  match s with
  | EmptyString => false
  | String _ _ => true
  end.

(** [sep.join(parts)] *)
Fixpoint join (sep : string) (parts : list string) : string :=
  match parts with
  | [] => EmptyString
  | [p] => p
  | p :: rest => p ++ sep ++ join sep rest
  end.

(** [needle in hay], as a proposition: [hay] is [pre ++ needle ++ post]. *)
Definition contains (needle hay : string) : Prop :=
  exists pre post : string, hay = pre ++ needle ++ post.

(** ** [str.format] with keyword arguments

    The scanner follows the replacement-field grammar as far as the template
    needs it: literal text, the escapes of a doubled brace, and fields that
    are a bare keyword name.  A field with a conversion, a format
    specification, an attribute or an index is outside the model and is
    reported as a [ValueError]; the template has none. *)

Fixpoint lookup_kw (kw : list (string * string)) (name : string) : Res string :=
  match kw with
  | [] => Raise (KeyError name)
  | (k, v) :: kw' => if String.eqb k name then Ok v else lookup_kw kw' name
  end.

Definition is_digit (c : ascii) : bool :=
  (Nat.leb (nat_of_ascii "0") (nat_of_ascii c)
   && Nat.leb (nat_of_ascii c) (nat_of_ascii "9"))%char.

Fixpoint all_digits (s : string) : bool :=
  match s with
  | EmptyString => true
  | String c s' => is_digit c && all_digits s'
  end.

(** The value of the field [name]: a name made of digits is an index into
    the positional arguments, of which the script passes none. *)
Definition get_field (kw : list (string * string)) (name : string) : Res string :=
  if all_digits name then Raise IndexError else lookup_kw kw name.

Inductive Scan : Type :=
| Literal                    (* in literal text *)
| SawOpen                    (* just read an opening brace *)
| SawClose                   (* just read a closing brace in literal text *)
| InField (name : string).   (* inside a replacement field, name read so far *)

Definition emit (s : string) (rest : Res string) : Res string :=
  match rest with
  | Ok r => Ok (s ++ r)
  | Raise e => Raise e
  end.

Definition field_char_ok (c : ascii) : bool :=
  negb (Ascii.eqb c "!" || Ascii.eqb c ":" || Ascii.eqb c "." || Ascii.eqb c "["
        || Ascii.eqb c "{")%char.

Fixpoint format_scan (kw : list (string * string)) (sc : Scan) (tpl : string)
  : Res string :=
  match tpl with
  | EmptyString =>
      match sc with
      | Literal => Ok EmptyString
      | SawClose => Raise (ValueError "Single '}' encountered in format string")
      | SawOpen => Raise (ValueError "Single '{' encountered in format string")
      | InField _ => Raise (ValueError "expected '}' before end of string")
      end
  | String c tpl' =>
      match sc with
      | Literal =>
          if Ascii.eqb c "{" then format_scan kw SawOpen tpl'
          else if Ascii.eqb c "}" then format_scan kw SawClose tpl'
          else emit (String c EmptyString) (format_scan kw Literal tpl')
      | SawOpen =>
          if Ascii.eqb c "{" then emit "{" (format_scan kw Literal tpl')
          else if Ascii.eqb c "}" then Raise IndexError
          else if field_char_ok c
               then format_scan kw (InField (String c EmptyString)) tpl'
               else Raise (ValueError "unsupported replacement field")
      | SawClose =>
          if Ascii.eqb c "}" then emit "}" (format_scan kw Literal tpl')
          else Raise (ValueError "Single '}' encountered in format string")
      | InField name =>
          if Ascii.eqb c "}" then
            match get_field kw name with
            | Ok v => emit v (format_scan kw Literal tpl')
            | Raise e => Raise e
            end
          else if field_char_ok c
               then format_scan kw (InField (name ++ String c EmptyString)) tpl'
               else Raise (ValueError "unsupported replacement field")
      end
  end.

(** [tpl.format] applied to the keyword arguments [kw] *)
Definition format (tpl : string) (kw : list (string * string)) : Res string :=
  format_scan kw Literal tpl.

(** ** The core prompt template (lines 13 to 56)

    One list entry per line of the triple-quoted literal; the literal opens
    and closes with a line break, hence the empty first and last entries. *)
Definition PROMPT_TEMPLATE_lines : list string :=
  [
    EmptyString;
    "**I. The Persona and Role**";
    EmptyString;
    "You are an expert Computer Science teaching assistant and study partner for the university-level course, " ++ dq ++ "{class_name}" ++ dq ++ ". Your persona is encouraging, precise, and deeply knowledgeable. You are not just a question-answerer; you are a guide. Your goal is to help me, the student, achieve true mastery of the course material in preparation for an exam. You will maintain a positive and motivational tone throughout our interaction.";
    EmptyString;
    "**II. The Initial Knowledge Base & Starting Point**";
    EmptyString;
    "You are being brought into an ongoing, adaptive study session. Your first task is to absorb the provided context to continue the session seamlessly.";
    EmptyString;
    "**Your initial context consists of:**";
    EmptyString;
    "1.  **My Learning Materials:** I have provided a set of files for context named: {file_names_str}.";
    "2.  **My Core Topic List:** The following is a list of the core topics I need to master for my exam:";
    "{topic_list}";
    EmptyString;
    "**Your first action is to analyze this context to establish a baseline understanding of my current knowledge state. Use this to determine the initial set of " ++ dq ++ "Mastered Topics" ++ dq ++ " and " ++ dq ++ "Working Topics" ++ dq ++ ". Do not generate a study guide or start with an easy quiz. We are jumping directly into the core learning loop.**";
    EmptyString;
    "**III. The Core Interaction Loop: The Adaptive Quiz System**";
    EmptyString;
    "After analyzing the initial context, you will begin generating practice quizzes according to the following iterative loop.";
    EmptyString;
    "**A. Quiz Generation:**";
    EmptyString;
    "1.  Generate a practice quiz for me. Quizzes should be short (5-7 questions) and contain a mix of formats suitable for the subject. Quizzes should contain MCQ (Multiple Choice Questions) and FRQ (Free Response Questions).";
    "2.  **Difficulty & Content Strategy:** All quizzes will be of a consistent, higher difficulty (e.g., 7/10), designed to test nuanced understanding. You must track my performance on a topic-by-topic basis to categorize topics into " ++ dq ++ "Mastered" ++ dq ++ ", " ++ dq ++ "Working" ++ dq ++ ", and " ++ dq ++ "New" ++ dq ++ ". Each quiz must follow this distribution: **~20% Mastered, ~60% Working, and ~20% New Topics.** You must explicitly state when you are using this adaptive strategy.";
    "3.  **Question Formats:** Use diverse formats like Scenario Analysis, Spot the Flaw, Compare and Contrast, and Justify the 'Why'.";
    EmptyString;
    "**B. Grading and Feedback:**";
    EmptyString;
    "1.  I will provide my answers. You will grade them meticulously, providing a score.";
    "2.  For each question, provide a detailed explanation for the correct answer. Acknowledge the reasoning in my answers, even if they are incorrect.";
    "3.  After grading, provide a brief, encouraging " ++ dq ++ "Final Score & Summary" ++ dq ++ ".";
    EmptyString;
    "**IV. Special Commands and Meta-Interaction**";
    EmptyString;
    "1.  At any time, I can ask for a " ++ dq ++ "Progress Report." ++ dq ++ " You will then synthesize all our quiz interactions and provide a summary of my progress.";
    "2.  I will provide feedback on your performance, and you must incorporate it into your subsequent actions.";
    EmptyString;
    "**V. The Goal State**";
    EmptyString;
    "Our interaction is successful when I have achieved a perfect score on three consecutive quizzes. At that point, you can congratulate me and conclude the session.";
    EmptyString;
    "**Your first message to me should be a brief, welcoming greeting, confirming you have understood the context and are ready to begin with the first targeted quiz.**";
    EmptyString
  ].

Definition PROMPT_TEMPLATE : string := join nl PROMPT_TEMPLATE_lines.

(** ** Widgets, session state and the provider *)

(** An uploaded file as [st.file_uploader] returns it: a name and the bytes. *)
Record UploadedFile : Type := { name : string; data : string }.

(** The values the widgets return in one rerun of the script. *)
Record Widgets : Type := {
  api_key : string;                      (* st.text_input, line 68 *)
  class_name : string;                   (* st.text_input, line 71 *)
  topic_list : string;                   (* st.text_area, line 72 *)
  uploaded_files : list UploadedFile;    (* st.file_uploader, line 89 *)
  generate_clicked : bool;               (* st.button, line 95 *)
  chat_input : option string             (* st.chat_input, line 148: None or the text *)
}.

Inductive Role : Type := user | assistant.

(** An entry of [st.session_state.messages]. *)
Record Message : Type := { role : Role; content : string }.

(** A [ChatSession] object, known by its identity. *)
Definition Chat : Type := nat.

(** [st.session_state]: each of the two keys is absent or holds a value. *)
Record SessionState : Type := {
  gemini_chat : option Chat;
  messages : option (list Message)
}.

(** What [send_message] returns.  [text] is [None] when the reply carries
    no text part: reading [.text] then raises. *)
Record Response : Type := { text : option string }.

(** One round trip: the provider answers, or the call fails
    (authentication, network, quota, ...). *)
Inductive Outcome : Type :=
| Returned (r : Response)
| Failed (msg : string).

(** The remote provider: the outcome of the [n]-th call, which sends
    [msg] on chat [c]. *)
Definition Provider : Type := nat -> Chat -> string -> Outcome.

(** What a rerun renders and which library calls it makes, in order. *)
Inductive Event : Type :=
| st_error (msg : string)
| st_error_exn (prefix : string) (e : Exn)    (* st.error of an f-string ending in the exception *)
| st_info (msg : string)
| st_success (msg : string)
| st_chat_message (r : Role) (body : string)  (* with st.chat_message(r): st.markdown(body) *)
| genai_configure (key : string)
| start_chat (c : Chat)
| send_message (c : Chat) (msg : string).

Record World : Type := {
  session_state : SessionState;
  output : list Event;     (* events of the current rerun, oldest first *)
  calls : nat;             (* provider calls made so far *)
  chats : nat              (* ChatSession objects created so far *)
}.

(** ** The script monad: provider, state and exceptions *)

Definition M (A : Type) : Type := Provider -> World -> Res A * World.

Definition ret {A} (a : A) : M A := fun _ W => (Ok a, W).

Definition bind {A B} (m : M A) (k : A -> M B) : M B :=
  fun pv W =>
    match m pv W with
    | (Ok a, W') => k a pv W'
    | (Raise e, W') => (Raise e, W')
    end.

Notation "x <- m ;; k" := (bind m (fun x => k))
  (at level 61, m at next level, right associativity).
Notation "m ;; k" := (bind m (fun _ => k))
  (at level 61, right associativity).

(** A pure computation that may raise. *)
Definition lift {A} (r : Res A) : M A := fun _ W => (r, W).

(** [try: body except Exception as e: handler(e)] *)
Definition try_except {A} (body : M A) (handler : Exn -> M A) : M A :=
  fun pv W =>
    match body pv W with
    | (Ok a, W') => (Ok a, W')
    | (Raise e, W') => handler e pv W'
    end.

Definition log (ev : Event) : M unit :=
  fun _ W =>
    (Ok tt, {| session_state := session_state W; output := (output W ++ [ev])%list;
               calls := calls W; chats := chats W |}).

Definition get_session_state : M SessionState :=
  fun _ W => (Ok (session_state W), W).

Definition put_session_state (ss : SessionState) : M unit :=
  fun _ W =>
    (Ok tt, {| session_state := ss; output := output W;
               calls := calls W; chats := chats W |}).

(** [st.session_state.gemini_chat = c] *)
Definition set_gemini_chat (c : Chat) : M unit :=
  ss <- get_session_state ;;
  put_session_state {| gemini_chat := Some c; messages := messages ss |}.

(** [st.session_state.messages = ms] *)
Definition set_messages (ms : list Message) : M unit :=
  ss <- get_session_state ;;
  put_session_state {| gemini_chat := gemini_chat ss; messages := Some ms |}.

(** [st.session_state.gemini_chat], an [AttributeError] when absent. *)
Definition get_gemini_chat : M Chat :=
  ss <- get_session_state ;;
  match gemini_chat ss with
  | Some c => ret c
  | None => lift (Raise (AttributeError "gemini_chat"))
  end.

(** [st.session_state.messages.append(entry)]: the bound method is looked
    up first, an [AttributeError] when the key is absent; then the argument
    is evaluated, which may raise; then the stored list is updated in
    place. *)
Definition messages_append (entry : Res Message) : M unit :=
  ss <- get_session_state ;;
  match messages ss with
  | Some ms =>
      m <- lift entry ;;
      put_session_state {| gemini_chat := gemini_chat ss;
                           messages := Some (ms ++ [m])%list |}
  | None => lift (Raise (AttributeError "messages"))
  end.

(** [model.start_chat(history=[])]: a new object, no network traffic. *)
Definition model_start_chat : M Chat :=
  fun _ W =>
    (Ok (chats W),
     {| session_state := session_state W; output := (output W ++ [start_chat (chats W)])%list;
        calls := calls W; chats := S (chats W) |}).

(** [c.send_message(msg)]: one round trip to the provider. *)
Definition chat_send_message (c : Chat) (msg : string) : M Response :=
  fun pv W =>
    (match pv (calls W) c msg with
     | Returned r => Ok r
     | Failed err => Raise (ProviderError err)
     end,
     {| session_state := session_state W; output := (output W ++ [send_message c msg])%list;
        calls := S (calls W); chats := chats W |}).

(** [response.text] *)
Definition response_text (r : Response) : Res string :=
  match text r with
  | Some t => Ok t
  | None => Raise (ValueError "the response has no text part")
  end.

(** The dict literal of an assistant entry, whose content may raise. *)
Definition assistant_entry (reply : Res string) : Res Message :=
  match reply with
  | Ok t => Ok {| role := assistant; content := t |}
  | Raise e => Raise e
  end.

(** ** The generate action (lines 95 to 136) *)

Definition no_files_placeholder : string :=
  "No files provided. Using topic list only.".

(** Lines 108 to 111. *)
Definition file_names_str (file_names : list string) : string :=
  match file_names with
  | [] => no_files_placeholder
  | _ :: _ => join ", " file_names
  end.

(** Lines 107 to 118: the prompt from the three configuration values. *)
Definition final_prompt (cn tl : string) (files : list UploadedFile) : Res string :=
  let file_names := map name files in
  format PROMPT_TEMPLATE
    [("class_name", cn); ("topic_list", tl);
     ("file_names_str", file_names_str file_names)].

(** The prompt builder as the handler runs it: a step of the script that
    reads the widget values only. *)
Definition build_prompt (w : Widgets) : M string :=
  lift (final_prompt (class_name w) (topic_list w) (uploaded_files w)).

(** Lines 104 to 132, the body of the [try]. *)
Definition generate_try (w : Widgets) : M unit :=
  log (genai_configure (api_key w)) ;;
  prompt <- build_prompt w ;;
  chat <- model_start_chat ;;
  initial_response <- chat_send_message chat prompt ;;
  set_gemini_chat chat ;;
  entry <- lift (assistant_entry (response_text initial_response)) ;;
  set_messages [entry] ;;
  log (st_success "Tutor generated successfully! You can now start chatting below.").

(** Lines 134 to 136. *)
Definition generate_except (e : Exn) : M unit :=
  log (st_error_exn "An error occurred: " e) ;;
  log (st_info "Please check your API key and ensure it has access to the Gemini 1.5 Pro model.").

Definition missing_key_msg : string :=
  "Please enter your Gemini API Key in the sidebar.".
Definition missing_fields_msg : string :=
  "Please provide the Course Name and Topic List.".

Definition generate_handler (w : Widgets) : M unit :=
  if generate_clicked w then
    if negb (truthy (api_key w)) then
      log (st_error missing_key_msg)
    else if negb (truthy (class_name w)) || negb (truthy (topic_list w)) then
      log (st_error missing_fields_msg)
    else
      try_except (generate_try w) generate_except
  else ret tt.

(** ** The chat interface (lines 139 to 166) *)

(** Lines 143 to 145. *)
Fixpoint display_messages (ms : list Message) : M unit :=
  match ms with
  | [] => ret tt
  | msg :: rest => log (st_chat_message (role msg) (content msg)) ;; display_messages rest
  end.

(** Lines 156 to 163, the body of the [try]. *)
Definition chat_try (prompt : string) : M unit :=
  chat_session <- get_gemini_chat ;;
  response <- chat_send_message chat_session prompt ;;
  messages_append (assistant_entry (response_text response)) ;;
  reply <- lift (response_text response) ;;
  log (st_chat_message assistant reply).

Definition chat_except (e : Exn) : M unit :=
  log (st_error_exn "An error occurred while communicating with the AI: " e).

Definition chat_interface (w : Widgets) : M unit :=
  ss <- get_session_state ;;
  match messages ss with
  | None => ret tt
  | Some ms =>
      display_messages ms ;;
      match chat_input w with
      | Some prompt =>
          if truthy prompt then
            messages_append (Ok {| role := user; content := prompt |}) ;;
            log (st_chat_message user prompt) ;;
            try_except (chat_try prompt) chat_except
          else ret tt
      | None => ret tt
      end
  end.

(** ** One rerun of the script, and the states a session can reach *)

Definition script (w : Widgets) : M unit :=
  generate_handler w ;; chat_interface w.

(** Streamlit renders every rerun on a cleared page. *)
Definition clear_output (W : World) : World :=
  {| session_state := session_state W; output := [];
     calls := calls W; chats := chats W |}.

Definition rerun (pv : Provider) (w : Widgets) (W : World) : World :=
  snd (script w pv (clear_output W)).

Definition initial_world : World :=
  {| session_state := {| gemini_chat := None; messages := None |};
     output := []; calls := 0; chats := 0 |}.

Inductive reachable (pv : Provider) : World -> Prop :=
| reach_initial : reachable pv initial_world
| reach_rerun (w : Widgets) (W : World) :
    reachable pv W -> reachable pv (rerun pv w W).

(** ** The template as literal text around its three fields *)

(** The part of [s] before, and after, the first occurrence of [marker]. *)
Definition before (marker s : string) : string :=
  match index 0 marker s with
  | Some i => substring 0 i s
  | None => s
  end.

Definition after (marker s : string) : string :=
  match index 0 marker s with
  | Some i => substring (i + String.length marker)
                        (String.length s - (i + String.length marker)) s
  | None => EmptyString
  end.

Definition text_to_course : string := before "{class_name}" PROMPT_TEMPLATE.
Definition text_course_to_files : string :=
  before "{file_names_str}" (after "{class_name}" PROMPT_TEMPLATE).
Definition text_files_to_topics : string :=
  before "{topic_list}" (after "{file_names_str}" PROMPT_TEMPLATE).
Definition text_after_topics : string := after "{topic_list}" PROMPT_TEMPLATE.

(** The prompt for a course name, a topic list and the text standing for
    the files. *)
Definition prompt_of (cn tl fstr : string) : string :=
  text_to_course ++ cn ++ text_course_to_files ++ fstr
  ++ text_files_to_topics ++ tl ++ text_after_topics.

(** ** Vocabulary of the properties *)

(** All three required fields are non-empty (lines 96 and 98). *)
Definition accepted (w : Widgets) : bool :=
  truthy (api_key w) && truthy (class_name w) && truthy (topic_list w).

(** The message of the configuration error (lines 97 and 99). *)
Definition configuration_error (w : Widgets) : string :=
  if truthy (api_key w) then missing_fields_msg else missing_key_msg.

(** The prompt the generate action sends for the widget values [w]. *)
Definition prompt_for (w : Widgets) : string :=
  prompt_of (class_name w) (topic_list w)
            (file_names_str (map name (uploaded_files w))).

(** The reply text of a provider outcome: the call returned and the
    response has a text. *)
Definition reply_of (o : Outcome) : Res string :=
  match o with
  | Returned r => response_text r
  | Failed err => Raise (ProviderError err)
  end.

(** The events of the generate action up to and including the call. *)
Definition generate_events (w : Widgets) (W : World) : list Event :=
  [genai_configure (api_key w); start_chat (chats W);
   send_message (chats W) (prompt_for w)].

(** What the chat interface shows for a stored entry (lines 144, 145). *)
Definition shown (m : Message) : Event := st_chat_message (role m) (content m).

(** The text submitted in the chat box, when there is one (line 148). *)
Definition submitted (w : Widgets) : option string :=
  match chat_input w with
  | Some prompt => if truthy prompt then Some prompt else None
  | None => None
  end.

(** The texts handed to [send_message], in order. *)
Fixpoint sent (evs : list Event) : list string :=
  match evs with
  | [] => []
  | send_message _ msg :: rest => msg :: sent rest
  | _ :: rest => sent rest
  end.

(** A stored transcript comes with a stored chat session, and a stored chat
    session is an object that was created. *)
Definition session_inv (W : World) : Prop :=
  (forall ms, messages (session_state W) = Some ms ->
              exists c, gemini_chat (session_state W) = Some c)
  /\ (forall c, gemini_chat (session_state W) = Some c -> c < chats W).

(** The events that report an [AttributeError]: an access to a key of
    [st.session_state] that is absent. *)
Definition reports_attribute_error (ev : Event) : Prop :=
  match ev with
  | st_error_exn _ (AttributeError _) => True
  | _ => False
  end.

Definition no_attribute_error (evs : list Event) : Prop :=
  Forall (fun ev => ~ reports_attribute_error ev) evs.

Definition is_space (c : ascii) : bool :=
  (Ascii.eqb c " " || Ascii.eqb c "009" || Ascii.eqb c "010"
   || Ascii.eqb c "011" || Ascii.eqb c "012" || Ascii.eqb c "013")%char.

Fixpoint all_space (s : string) : bool :=
  match s with
  | EmptyString => true
  | String c s' => is_space c && all_space s'
  end.

(** [s] has a character and all its characters are whitespace. *)
Definition whitespace_only (s : string) : bool := truthy s && all_space s.

(** The property as the specification words it: a failed send leaves the
    transcript as it was. *)
Definition send_failure_leaves_transcript : Prop :=
  forall (pv : Provider) (w : Widgets) (W : World) (ms : list Message)
         (c : Chat) (p err : string),
    reachable pv W ->
    generate_clicked w = false ->
    messages (session_state W) = Some ms ->
    gemini_chat (session_state W) = Some c ->
    submitted w = Some p ->
    pv (calls W) c p = Failed err ->
    messages (session_state (rerun pv w W)) = Some ms.

(** ** Sessions to test on: the end-to-end scenario and its variations *)

Definition cs101 : Widgets :=
  {| api_key := "secret"; class_name := "CS101"; topic_list := "Recursion";
     uploaded_files := []; generate_clicked := true; chat_input := None |}.

Definition quiz_me : Widgets :=
  {| api_key := "secret"; class_name := "CS101"; topic_list := "Recursion";
     uploaded_files := []; generate_clicked := false;
     chat_input := Some "quiz me" |}.

(** The CS101 form filled in again later, with another key. *)
Definition cs101_again : Widgets :=
  {| api_key := "another key"; class_name := "CS101"; topic_list := "Recursion";
     uploaded_files := []; generate_clicked := true; chat_input := None |}.

(** Two uploads, with contents the script never reads. *)
Definition a_pdf : UploadedFile := {| name := "a.pdf"; data := "%PDF-1.4 lecture notes" |}.
Definition b_txt : UploadedFile := {| name := "b.txt"; data := "past quiz" |}.

(** The form with the course name left empty. *)
Definition no_course : Widgets :=
  {| api_key := "secret"; class_name := EmptyString; topic_list := "Recursion";
     uploaded_files := [a_pdf]; generate_clicked := true; chat_input := None |}.

(** The form with three spaces for a course name. *)
Definition blank_course : Widgets :=
  {| api_key := "secret"; class_name := "   "; topic_list := "Recursion";
     uploaded_files := []; generate_clicked := true; chat_input := None |}.

(** The same two uploads with other contents. *)
Definition a_pdf_other : UploadedFile := {| name := "a.pdf"; data := "scanned pages" |}.
Definition b_txt_other : UploadedFile := {| name := "b.txt"; data := EmptyString |}.

Definition with_files (files : list UploadedFile) : Widgets :=
  {| api_key := "secret"; class_name := "CS101"; topic_list := "Recursion";
     uploaded_files := files; generate_clicked := true; chat_input := None |}.

(** A provider that answers [R1] to the first call and [R2] afterwards. *)
Definition answering : Provider :=
  fun n _ _ =>
    Returned {| text := Some match n with 0 => "R1" | _ => "R2" end |}.

(** A provider that answers the first call and fails from then on. *)
Definition out_of_quota : Provider :=
  fun n _ _ =>
    match n with
    | 0 => Returned {| text := Some "R1" |}
    | _ => Failed "quota exceeded"
    end.

Definition R1_entry : Message := {| role := assistant; content := "R1" |}.

(** ** Vocabulary of the further properties *)

(** The stored transcript, empty when the key is absent. *)
Definition transcript (W : World) : list Message :=
  match messages (session_state W) with
  | Some ms => ms
  | None => []
  end.

Definition user_says (p : string) : Message := {| role := user; content := p |}.
Definition assistant_says (r : string) : Message :=
  {| role := assistant; content := r |}.

(** The first reply of a generate action that goes through in world [W]:
    the button is clicked, the three fields are filled in, the provider
    answers and the answer has a text. *)
Definition generate_reply (pv : Provider) (w : Widgets) (W : World) : option string :=
  if generate_clicked w && accepted w then
    match reply_of (pv (calls W) (chats W) (prompt_for w)) with
    | Ok reply => Some reply
    | Raise _ => None
    end
  else None.

(** The chat bubbles among the events of a rerun. *)
Fixpoint chat_events (evs : list Event) : list Event :=
  match evs with
  | [] => []
  | st_chat_message r body :: rest => st_chat_message r body :: chat_events rest
  | _ :: rest => chat_events rest
  end.


Definition is_assistant (m : Message) : bool :=
  match role m with
  | assistant => true
  | user => false
  end.

Definition starts_with_assistant (ms : list Message) : bool :=
  match ms with
  | m :: _ => is_assistant m
  | [] => false
  end.

(** No assistant entry directly follows another one. *)
Fixpoint no_adjacent_assistant (ms : list Message) : bool :=
  match ms with
  | [] => true
  | m :: rest =>
      match rest with
      | [] => true
      | m' :: _ => negb (is_assistant m && is_assistant m')
      end && no_adjacent_assistant rest
  end.

(** Every user entry has a text. *)
Definition user_entries_nonempty (ms : list Message) : bool :=
  forallb (fun m => is_assistant m || truthy (content m)) ms.

Definition transcript_ok (ms : list Message) : Prop :=
  starts_with_assistant ms = true
  /\ no_adjacent_assistant ms = true
  /\ user_entries_nonempty ms = true.

(** What a send can add to the transcript: nothing, the user's message, or
    the user's message and the reply. *)
Definition send_tail (w : Widgets) (tail : list Message) : Prop :=
  tail = []
  \/ exists p, submitted w = Some p
               /\ (tail = [user_says p]
                   \/ exists r, tail = [user_says p; assistant_says r]).

(** A provider that fails the second call only. *)
Definition flaky : Provider :=
  fun n _ _ =>
    match n with
    | 1 => Failed "network unreachable"
    | 0 => Returned {| text := Some "R1" |}
    | _ => Returned {| text := Some "R2" |}
    end.

(** The form submitted with a click on the button and a chat message at
    once. *)
Definition cs101_and_quiz : Widgets :=
  {| api_key := "secret"; class_name := "CS101"; topic_list := "Recursion";
     uploaded_files := []; generate_clicked := true;
     chat_input := Some "quiz me" |}.

(** The sidebar edited during the chat: nothing of the form is as it was. *)
Definition quiz_me_edited : Widgets :=
  {| api_key := EmptyString; class_name := "MATH 19"; topic_list := EmptyString;
     uploaded_files := [a_pdf]; generate_clicked := false;
     chat_input := Some "quiz me" |}.


(** One upload whose name reads like two. *)
Definition a_b_txt : UploadedFile := {| name := "a.pdf, b.txt"; data := "merged" |}.

(** An upload named like the sentence that stands for no upload. *)
Definition misnamed : UploadedFile :=
  {| name := "No files provided. Using topic list only."; data := "notes" |}.

(** The characters of a list of strings, all together. *)
Fixpoint total_length (parts : list string) : nat :=
  match parts with
  | [] => 0
  | p :: rest => String.length p + total_length rest
  end.

(** * Properties *)

(** ** Strings *)

Lemma append_assoc (a b c : string) : (a ++ b) ++ c = a ++ b ++ c.
Proof.
  induction a as [|ch a IH]; simpl; [reflexivity | now rewrite IH].
Qed.

Lemma append_empty_r (a : string) : a ++ EmptyString = a.
Proof.
  induction a as [|ch a IH]; simpl; [reflexivity | now rewrite IH].
Qed.

Lemma contains_refl (s : string) : contains s s.
Proof.
  exists EmptyString, EmptyString. simpl. now rewrite append_empty_r.
Qed.

Lemma contains_app_l (n a b : string) : contains n a -> contains n (a ++ b).
Proof.
  intros (pre & post & ->). exists pre, (post ++ b).
  now rewrite !append_assoc.
Qed.

Lemma contains_app_r (n a b : string) : contains n b -> contains n (a ++ b).
Proof.
  intros (pre & post & ->). exists (a ++ pre), post.
  now rewrite !append_assoc.
Qed.

Create HintDb tutor.
#[local] Hint Resolve contains_refl contains_app_l contains_app_r : tutor.

Lemma truthy_nonempty (s : string) : truthy s = true <-> s <> EmptyString.
Proof.
  destruct s; simpl; split; congruence.
Qed.

Lemma truthy_false_empty (s : string) : truthy s = false <-> s = EmptyString.
Proof.
  destruct s; simpl; split; congruence.
Qed.

(** ** The prompt *)

(** The literal of lines 13 to 56 has 3200 characters. *)
Lemma PROMPT_TEMPLATE_length : String.length PROMPT_TEMPLATE = 3200.
Proof. vm_compute. reflexivity. Qed.

Example format_escapes : format "{{}} {x}" [("x", "1")] = Ok "{} 1".
Proof. reflexivity. Qed.

Example format_missing_keyword : format "{x}" [("y", "1")] = Raise (KeyError "x").
Proof. reflexivity. Qed.

Example format_positional : format "{0}" [("x", "1")] = Raise IndexError.
Proof. reflexivity. Qed.

Example format_single_brace :
  format "a}b" [] = Raise (ValueError "Single '}' encountered in format string").
Proof. reflexivity. Qed.

(** A value is substituted as it is: braces in it are not scanned again. *)
Example format_value_with_braces : format "<{x}>" [("x", "{y}")] = Ok "<{y}>".
Proof. reflexivity. Qed.

(** [str.format] on the template never raises: each of its three fields is
    one of the keywords passed, and the result is the literal text with the
    values in place of the fields. *)
Lemma format_PROMPT_TEMPLATE (cn tl fstr : string) :
  format PROMPT_TEMPLATE
    [("class_name", cn); ("topic_list", tl); ("file_names_str", fstr)]
  = Ok (prompt_of cn tl fstr).
Proof.
  vm_compute. reflexivity.
Qed.

Lemma final_prompt_eq (cn tl : string) (files : list UploadedFile) :
  final_prompt cn tl files
  = Ok (prompt_of cn tl (file_names_str (map name files))).
Proof.
  unfold final_prompt. apply format_PROMPT_TEMPLATE.
Qed.

Lemma prompt_of_contains_course (cn tl fstr : string) :
  contains cn (prompt_of cn tl fstr).
Proof.
  unfold prompt_of. auto with tutor.
Qed.

Lemma prompt_of_contains_topics (cn tl fstr : string) :
  contains tl (prompt_of cn tl fstr).
Proof.
  unfold prompt_of. auto 10 with tutor.
Qed.

Lemma prompt_of_contains_files (cn tl fstr : string) :
  contains fstr (prompt_of cn tl fstr).
Proof.
  unfold prompt_of. auto 10 with tutor.
Qed.

(** ** Running the handlers *)

Arguments final_prompt : simpl never.
Arguments prompt_of : simpl never.

Ltac run_monad :=
  unfold set_gemini_chat, set_messages, get_gemini_chat, messages_append,
    model_start_chat, chat_send_message, get_session_state, put_session_state,
    try_except, bind, ret, lift, log;
  cbn [fst snd session_state output calls chats gemini_chat messages].

Lemma generate_try_ok (w : Widgets) (pv : Provider) (W : World) (reply : string) :
  reply_of (pv (calls W) (chats W) (prompt_for w)) = Ok reply ->
  generate_try w pv W
  = (Ok tt,
     {| session_state :=
          {| gemini_chat := Some (chats W);
             messages := Some [{| role := assistant; content := reply |}] |};
        output := (output W ++ generate_events w W
                   ++ [st_success "Tutor generated successfully! You can now start chatting below."])%list;
        calls := S (calls W);
        chats := S (chats W) |}).
Proof.
  intros Hreply. unfold generate_try, build_prompt, prompt_for in *. run_monad.
  rewrite final_prompt_eq.
  destruct (pv _ _ _) as [r|e]; cbn in Hreply; [|discriminate].
  rewrite Hreply. unfold generate_events, prompt_for.
  now rewrite <- !app_assoc.
Qed.

Lemma generate_try_raise (w : Widgets) (pv : Provider) (W : World) (e : Exn) :
  reply_of (pv (calls W) (chats W) (prompt_for w)) = Raise e ->
  exists ss,
    generate_try w pv W
    = (Raise e,
       {| session_state := ss;
          output := (output W ++ generate_events w W)%list;
          calls := S (calls W);
          chats := S (chats W) |})
    /\ (ss = session_state W
        \/ ss = {| gemini_chat := Some (chats W);
                   messages := messages (session_state W) |}).
Proof.
  intros Hreply. unfold generate_try, build_prompt, prompt_for in *. run_monad.
  rewrite final_prompt_eq.
  destruct (pv _ _ _) as [r|e']; cbn in Hreply.
  - rewrite Hreply.
    exists {| gemini_chat := Some (chats W); messages := messages (session_state W) |}.
    split; [|now right].
    unfold generate_events, prompt_for. now rewrite <- !app_assoc.
  - injection Hreply as ->. exists (session_state W); split; [|now left].
    unfold generate_events, prompt_for. now rewrite <- !app_assoc.
Qed.

Lemma generate_handler_idle (w : Widgets) (pv : Provider) (W : World) :
  generate_clicked w = false -> generate_handler w pv W = (Ok tt, W).
Proof.
  intros Hc. unfold generate_handler. now rewrite Hc.
Qed.

Lemma generate_handler_rejects (w : Widgets) (pv : Provider) (W : World) :
  generate_clicked w = true ->
  accepted w = false ->
  generate_handler w pv W
  = (Ok tt,
     {| session_state := session_state W;
        output := (output W ++ [st_error (configuration_error w)])%list;
        calls := calls W;
        chats := chats W |}).
Proof.
  intros Hc Hacc. unfold generate_handler, accepted, configuration_error in *.
  rewrite Hc.
  destruct (truthy (api_key w)); cbn in *; [|reflexivity].
  destruct (truthy (class_name w)); cbn in *; [|reflexivity].
  rewrite Hacc. reflexivity.
Qed.

Lemma generate_handler_accepts (w : Widgets) :
  generate_clicked w = true ->
  accepted w = true ->
  generate_handler w = try_except (generate_try w) generate_except.
Proof.
  intros Hc Hacc. unfold generate_handler, accepted in *. rewrite Hc.
  apply andb_prop in Hacc as [Hacc Htl]. apply andb_prop in Hacc as [Hk Hcn].
  now rewrite Hk, Hcn, Htl.
Qed.

Lemma generate_handler_ok (w : Widgets) (pv : Provider) (W : World) (reply : string) :
  generate_clicked w = true ->
  accepted w = true ->
  reply_of (pv (calls W) (chats W) (prompt_for w)) = Ok reply ->
  generate_handler w pv W
  = (Ok tt,
     {| session_state :=
          {| gemini_chat := Some (chats W);
             messages := Some [{| role := assistant; content := reply |}] |};
        output := (output W ++ generate_events w W
                   ++ [st_success "Tutor generated successfully! You can now start chatting below."])%list;
        calls := S (calls W);
        chats := S (chats W) |}).
Proof.
  intros Hc Hacc Hreply. rewrite generate_handler_accepts by assumption.
  unfold try_except. now rewrite (generate_try_ok _ _ _ _ Hreply).
Qed.

Lemma generate_handler_fail (w : Widgets) (pv : Provider) (W : World) (e : Exn) :
  generate_clicked w = true ->
  accepted w = true ->
  reply_of (pv (calls W) (chats W) (prompt_for w)) = Raise e ->
  exists ss,
    generate_handler w pv W
    = (Ok tt,
       {| session_state := ss;
          output := (output W ++ generate_events w W
                     ++ [st_error_exn "An error occurred: " e;
                         st_info "Please check your API key and ensure it has access to the Gemini 1.5 Pro model."])%list;
          calls := S (calls W);
          chats := S (chats W) |})
    /\ (ss = session_state W
        \/ ss = {| gemini_chat := Some (chats W);
                   messages := messages (session_state W) |}).
Proof.
  intros Hc Hacc Hreply. rewrite generate_handler_accepts by assumption.
  destruct (generate_try_raise _ _ _ _ Hreply) as (ss & Hrun & Hss).
  exists ss. split; [|exact Hss].
  unfold try_except. rewrite Hrun. unfold generate_except. run_monad.
  now rewrite <- !app_assoc.
Qed.

Lemma display_messages_run (ms : list Message) (pv : Provider) (W : World) :
  display_messages ms pv W
  = (Ok tt,
     {| session_state := session_state W;
        output := (output W ++ map shown ms)%list;
        calls := calls W;
        chats := chats W |}).
Proof.
  revert W. induction ms as [|m ms IH]; intros W; cbn [display_messages map].
  - unfold ret. rewrite app_nil_r. now destruct W.
  - run_monad. rewrite IH. cbn. now rewrite <- app_assoc.
Qed.

Lemma chat_interface_hidden (w : Widgets) (pv : Provider) (W : World) :
  messages (session_state W) = None -> chat_interface w pv W = (Ok tt, W).
Proof.
  intros Hm. unfold chat_interface. run_monad. now rewrite Hm.
Qed.

Lemma chat_interface_no_input (w : Widgets) (pv : Provider) (W : World)
    (ms : list Message) :
  messages (session_state W) = Some ms ->
  submitted w = None ->
  chat_interface w pv W
  = (Ok tt,
     {| session_state := session_state W;
        output := (output W ++ map shown ms)%list;
        calls := calls W;
        chats := chats W |}).
Proof.
  intros Hm Hsub. unfold chat_interface, submitted in *. run_monad. rewrite Hm.
  rewrite display_messages_run.
  destruct (chat_input w) as [p|]; [|reflexivity].
  destruct (truthy p); [discriminate|reflexivity].
Qed.

Lemma chat_interface_send (w : Widgets) (pv : Provider) (W : World)
    (ms : list Message) (c : Chat) (p : string) :
  messages (session_state W) = Some ms ->
  gemini_chat (session_state W) = Some c ->
  submitted w = Some p ->
  chat_interface w pv W
  = match reply_of (pv (calls W) c p) with
    | Ok reply =>
        (Ok tt,
         {| session_state :=
              {| gemini_chat := Some c;
                 messages := Some (ms ++ [{| role := user; content := p |};
                                          {| role := assistant; content := reply |}])%list |};
            output := (output W ++ map shown ms
                       ++ [st_chat_message user p; send_message c p;
                           st_chat_message assistant reply])%list;
            calls := S (calls W);
            chats := chats W |})
    | Raise e =>
        (Ok tt,
         {| session_state :=
              {| gemini_chat := Some c;
                 messages := Some (ms ++ [{| role := user; content := p |}])%list |};
            output := (output W ++ map shown ms
                       ++ [st_chat_message user p; send_message c p;
                           st_error_exn "An error occurred while communicating with the AI: " e])%list;
            calls := S (calls W);
            chats := chats W |})
    end.
Proof.
  intros Hm Hc Hsub. unfold chat_interface, submitted in *. run_monad. rewrite Hm.
  rewrite display_messages_run.
  destruct (chat_input w) as [q|]; [|discriminate].
  destruct (truthy q); [|discriminate]. injection Hsub as ->.
  unfold chat_try, chat_except. run_monad. rewrite Hm, Hc. cbn.
  unfold reply_of.
  destruct (pv _ _ _) as [r|err]; [unfold response_text; destruct (text r) as [reply|]|];
    cbn; now rewrite <- !app_assoc.
Qed.

Lemma chat_interface_no_session (w : Widgets) (pv : Provider) (W : World)
    (ms : list Message) (p : string) :
  messages (session_state W) = Some ms ->
  gemini_chat (session_state W) = None ->
  submitted w = Some p ->
  chat_interface w pv W
  = (Ok tt,
     {| session_state :=
          {| gemini_chat := None;
             messages := Some (ms ++ [{| role := user; content := p |}])%list |};
        output := (output W ++ map shown ms
                   ++ [st_chat_message user p;
                       st_error_exn "An error occurred while communicating with the AI: "
                                    (AttributeError "gemini_chat")])%list;
        calls := calls W;
        chats := chats W |}).
Proof.
  intros Hm Hc Hsub. unfold chat_interface, submitted in *. run_monad. rewrite Hm.
  rewrite display_messages_run.
  destruct (chat_input w) as [q|]; [|discriminate].
  destruct (truthy q); [|discriminate]. injection Hsub as ->.
  unfold chat_try, chat_except. run_monad. rewrite Hm, Hc. cbn.
  now rewrite <- !app_assoc.
Qed.

Lemma reply_of_cases (o : Outcome) :
  (exists reply, reply_of o = Ok reply)
  \/ (exists e, reply_of o = Raise e /\ forall a, e <> AttributeError a).
Proof.
  destruct o as [r|err]; cbn; unfold response_text.
  - destruct (text r) as [t|]; [left; eauto | right; eexists; split; [reflexivity | discriminate]].
  - right. eexists; split; [reflexivity | discriminate].
Qed.

(** The generate handler catches everything, so a rerun always reaches the
    chat interface. *)
Lemma generate_handler_returns (w : Widgets) (pv : Provider) (W : World) :
  fst (generate_handler w pv W) = Ok tt.
Proof.
  destruct (generate_clicked w) eqn:Hc.
  - destruct (accepted w) eqn:Hacc.
    + destruct (reply_of_cases (pv (calls W) (chats W) (prompt_for w)))
        as [(reply & Hr) | (e & Hr & _)].
      * now rewrite (generate_handler_ok _ _ _ _ Hc Hacc Hr).
      * destruct (generate_handler_fail _ _ _ _ Hc Hacc Hr) as (ss & -> & _).
        reflexivity.
    + now rewrite generate_handler_rejects.
  - now rewrite generate_handler_idle.
Qed.

Lemma script_run (w : Widgets) (pv : Provider) (W : World) :
  script w pv W = chat_interface w pv (snd (generate_handler w pv W)).
Proof.
  unfold script, bind.
  pose proof (generate_handler_returns w pv W) as Hret.
  destruct (generate_handler w pv W) as [[[]|e] W']; cbn in *;
    [reflexivity | discriminate].
Qed.

Lemma rerun_idle_generate (pv : Provider) (w : Widgets) (W : World) :
  generate_clicked w = false ->
  rerun pv w W = snd (chat_interface w pv (clear_output W)).
Proof.
  intros Hc. unfold rerun. rewrite script_run.
  now rewrite generate_handler_idle.
Qed.

(** ** The session invariant *)

Lemma session_inv_initial : session_inv initial_world.
Proof.
  split; cbn; intros; discriminate.
Qed.

Lemma session_inv_clear (W : World) : session_inv W -> session_inv (clear_output W).
Proof.
  intros Hinv. exact Hinv.
Qed.

Lemma session_inv_generate (w : Widgets) (pv : Provider) (W : World) :
  session_inv W -> session_inv (snd (generate_handler w pv W)).
Proof.
  intros Hinv. pose proof Hinv as [Hm Hc].
  destruct (generate_clicked w) eqn:Hclick;
    [|rewrite generate_handler_idle by assumption; exact Hinv].
  destruct (accepted w) eqn:Hacc;
    [|rewrite generate_handler_rejects by assumption; exact Hinv].
  destruct (reply_of_cases (pv (calls W) (chats W) (prompt_for w)))
    as [(reply & Hr) | (e & Hr & _)].
  - rewrite (generate_handler_ok _ _ _ _ Hclick Hacc Hr). split; cbn.
    + intros _ _. eauto.
    + intros c [= <-]. lia.
  - destruct (generate_handler_fail _ _ _ _ Hclick Hacc Hr) as (ss & -> & [-> | ->]);
      split; cbn; intros; eauto.
    + specialize (Hc _ H). lia.
    + injection H as <-. lia.
Qed.

Lemma session_inv_chat (w : Widgets) (pv : Provider) (W : World) :
  session_inv W -> session_inv (snd (chat_interface w pv W)).
Proof.
  intros Hinv. pose proof Hinv as [Hm Hc].
  destruct (messages (session_state W)) as [ms|] eqn:Hms;
    [|rewrite chat_interface_hidden by assumption; exact Hinv].
  destruct (Hm _ eq_refl) as [c Hchat].
  destruct (submitted w) as [p|] eqn:Hsub.
  - rewrite (chat_interface_send _ _ _ _ _ _ Hms Hchat Hsub).
    destruct (reply_of _); split; cbn; intros; eauto;
      injection H as <-; now apply Hc.
  - rewrite (chat_interface_no_input _ _ _ _ Hms Hsub). exact Hinv.
Qed.

Lemma reachable_inv (pv : Provider) (W : World) : reachable pv W -> session_inv W.
Proof.
  induction 1 as [|w W Hreach IH].
  - apply session_inv_initial.
  - unfold rerun. rewrite script_run.
    now apply session_inv_chat, session_inv_generate, session_inv_clear.
Qed.

(** ** What is sent to the provider *)

Lemma sent_app (a b : list Event) : sent (a ++ b) = (sent a ++ sent b)%list.
Proof.
  induction a as [|ev a IH]; [reflexivity|].
  destruct ev; cbn; now rewrite IH.
Qed.

Lemma generate_handler_sends (w : Widgets) (pv : Provider) (W : World) :
  generate_clicked w = true ->
  accepted w = true ->
  sent (output (snd (generate_handler w pv W)))
  = (sent (output W) ++ [prompt_for w])%list
  /\ calls (snd (generate_handler w pv W)) = S (calls W).
Proof.
  intros Hclick Hacc.
  destruct (reply_of_cases (pv (calls W) (chats W) (prompt_for w)))
    as [(reply & Hr) | (e & Hr & _)].
  - rewrite (generate_handler_ok _ _ _ _ Hclick Hacc Hr). cbn.
    now rewrite !sent_app.
  - destruct (generate_handler_fail _ _ _ _ Hclick Hacc Hr) as (ss & -> & _).
    cbn. now rewrite !sent_app.
Qed.

Lemma started_answering :
  session_state (rerun answering cs101 initial_world)
  = {| gemini_chat := Some 0; messages := Some [R1_entry] |}.
Proof. vm_compute. reflexivity. Qed.

Lemma started_out_of_quota :
  session_state (rerun out_of_quota cs101 initial_world)
  = {| gemini_chat := Some 0; messages := Some [R1_entry] |}.
Proof. vm_compute. reflexivity. Qed.

(** ** Failure of a send *)

(** C1, as stated, fails: in the session started for CS101, the provider
    refuses the second call; the transcript had one entry before the send
    and has two after it, the second being the user's message. *)
Lemma C1_send_failure_counterexample :
  let W := rerun out_of_quota cs101 initial_world in
  reachable out_of_quota W
  /\ messages (session_state W) = Some [R1_entry]
  /\ out_of_quota (calls W) 0 "quiz me" = Failed "quota exceeded"
  /\ messages (session_state (rerun out_of_quota quiz_me W))
     = Some [R1_entry; {| role := user; content := "quiz me" |}]
  /\ ~ send_failure_leaves_transcript.
Proof.
  cbv zeta.
  assert (Hreach : reachable out_of_quota (rerun out_of_quota cs101 initial_world))
    by (apply reach_rerun, reach_initial).
  assert (Hafter : messages (session_state
                     (rerun out_of_quota quiz_me
                        (rerun out_of_quota cs101 initial_world)))
                   = Some [R1_entry; {| role := user; content := "quiz me" |}])
    by (vm_compute; reflexivity).
  repeat split; try assumption; try (vm_compute; reflexivity).
  intros Hclaim.
  specialize (Hclaim out_of_quota quiz_me _ [R1_entry] 0 "quiz me" "quota exceeded" Hreach).
  rewrite Hafter in Hclaim.
  assert (Hbad : Some [R1_entry; {| role := user; content := "quiz me" |}]
                 = Some [R1_entry]) by (apply Hclaim; vm_compute; reflexivity).
  discriminate Hbad.
Qed.

(** C1, amended: when the provider call of a send fails (the call raises,
    or the response has no text), the rerun appends exactly one entry to the
    transcript, the user's message, which line 150 stores before the call;
    no assistant entry is appended, the earlier entries are kept and the
    chat session stays the stored one. *)
Theorem C1_send_failure_keeps_user_entry
    (pv : Provider) (w : Widgets) (W : World) (ms : list Message)
    (c : Chat) (p : string) (e : Exn) :
  generate_clicked w = false ->
  messages (session_state W) = Some ms ->
  gemini_chat (session_state W) = Some c ->
  submitted w = Some p ->
  reply_of (pv (calls W) c p) = Raise e ->
  session_state (rerun pv w W)
  = {| gemini_chat := Some c;
       messages := Some (ms ++ [{| role := user; content := p |}])%list |}
  /\ In (st_error_exn "An error occurred while communicating with the AI: " e)
        (output (rerun pv w W)).
Proof.
  intros Hclick Hms Hchat Hsub Hfail.
  rewrite rerun_idle_generate by assumption.
  rewrite (chat_interface_send w pv (clear_output W) ms c p Hms Hchat Hsub).
  cbn [clear_output calls]. rewrite Hfail. cbn. split; [reflexivity|].
  apply in_or_app. right. cbn. auto.
Qed.

Lemma C1_send_failure_keeps_user_entry_witness :
  session_state (rerun out_of_quota quiz_me (rerun out_of_quota cs101 initial_world))
  = {| gemini_chat := Some 0;
       messages := Some ([R1_entry] ++ [{| role := user; content := "quiz me" |}])%list |}
  /\ In (st_error_exn "An error occurred while communicating with the AI: "
                      (ProviderError "quota exceeded"))
        (output (rerun out_of_quota quiz_me (rerun out_of_quota cs101 initial_world))).
Proof.
  apply (C1_send_failure_keeps_user_entry out_of_quota quiz_me
           (rerun out_of_quota cs101 initial_world) [R1_entry] 0 "quiz me"
           (ProviderError "quota exceeded"));
    vm_compute; reflexivity.
Defined.

(** ** Growth of the transcript *)

(** C2: a rerun in which the generate action succeeds leaves a transcript
    of exactly one entry, the assistant's first reply; a later rerun in
    which a send succeeds appends exactly two entries to the transcript, the
    user's message and then the assistant's reply. *)
Theorem C2_transcript_growth (pv : Provider) :
  (forall (w : Widgets) (W : World) (reply : string),
      generate_clicked w = true ->
      accepted w = true ->
      submitted w = None ->
      reply_of (pv (calls W) (chats W) (prompt_for w)) = Ok reply ->
      messages (session_state (rerun pv w W))
      = Some [{| role := assistant; content := reply |}])
  /\ (forall (w : Widgets) (W : World) (ms : list Message) (p : string),
         reachable pv W ->
         generate_clicked w = false ->
         messages (session_state W) = Some ms ->
         submitted w = Some p ->
         exists c,
           gemini_chat (session_state W) = Some c
           /\ forall reply,
               reply_of (pv (calls W) c p) = Ok reply ->
               messages (session_state (rerun pv w W))
               = Some (ms ++ [{| role := user; content := p |};
                              {| role := assistant; content := reply |}])%list
               /\ List.length (ms ++ [{| role := user; content := p |};
                                      {| role := assistant; content := reply |}])
                  = 2 + List.length ms).
Proof.
  split.
  - intros w W reply Hclick Hacc Hsub Hreply.
    unfold rerun. rewrite script_run.
    rewrite (generate_handler_ok w pv (clear_output W) reply Hclick Hacc Hreply).
    cbn [snd].
    erewrite chat_interface_no_input; [reflexivity | reflexivity | assumption].
  - intros w W ms p Hreach Hclick Hms Hsub.
    destruct (reachable_inv _ _ Hreach) as [Hinv _].
    destruct (Hinv _ Hms) as [c Hchat].
    exists c. split; [assumption|]. intros reply Hreply.
    rewrite rerun_idle_generate by assumption.
    rewrite (chat_interface_send w pv (clear_output W) ms c p Hms Hchat Hsub).
    cbn [clear_output calls]. rewrite Hreply. cbn [snd session_state messages].
    split; [reflexivity|].
    rewrite length_app. cbn. lia.
Qed.

Lemma C2_transcript_growth_witness :
  messages (session_state (rerun answering cs101 initial_world))
  = Some [{| role := assistant; content := "R1" |}]
  /\ messages (session_state
                 (rerun answering quiz_me (rerun answering cs101 initial_world)))
     = Some [{| role := assistant; content := "R1" |};
             {| role := user; content := "quiz me" |};
             {| role := assistant; content := "R2" |}].
Proof.
  destruct (C2_transcript_growth answering) as [Hstart Hsend].
  split.
  - apply Hstart; vm_compute; reflexivity.
  - assert (Hreach : reachable answering (rerun answering cs101 initial_world))
      by apply reach_rerun, reach_initial.
    assert (Hms : messages (session_state (rerun answering cs101 initial_world))
                  = Some [R1_entry]) by (vm_compute; reflexivity).
    destruct (Hsend quiz_me _ [R1_entry] "quiz me" Hreach eq_refl Hms eq_refl)
      as (c & Hc & Hgrow).
    assert (c = 0) as -> by (vm_compute in Hc; congruence).
    apply (Hgrow "R2"). vm_compute. reflexivity.
Defined.

(** ** The prompt builder *)

(** C3: the prompt builder is a function of the course name, the topic list
    and the names of the uploaded files.  Run in any two worlds, against any
    two providers, on widget values that agree on these three, it returns
    the same text, always returns, and changes nothing; and the text the
    generate action sends is that text, whatever the session state, the
    counters, the provider and the API key are. *)
Theorem C3_prompt_builder_pure
    (w1 w2 : Widgets) (pv1 pv2 : Provider) (W1 W2 : World) :
  class_name w1 = class_name w2 ->
  topic_list w1 = topic_list w2 ->
  map name (uploaded_files w1) = map name (uploaded_files w2) ->
  exists p : string,
    build_prompt w1 pv1 W1 = (Ok p, W1)
    /\ build_prompt w2 pv2 W2 = (Ok p, W2)
    /\ (generate_clicked w1 = true -> accepted w1 = true ->
        sent (output (snd (generate_handler w1 pv1 (clear_output W1)))) = [p])
    /\ (generate_clicked w2 = true -> accepted w2 = true ->
        sent (output (snd (generate_handler w2 pv2 (clear_output W2)))) = [p]).
Proof.
  intros Hcn Htl Hnames. exists (prompt_for w1).
  assert (Hsame : prompt_for w2 = prompt_for w1)
    by (unfold prompt_for; now rewrite Hcn, Htl, Hnames).
  unfold build_prompt, lift. rewrite !final_prompt_eq.
  fold (prompt_for w1). fold (prompt_for w2). rewrite Hsame.
  repeat split.
  - intros Hclick Hacc.
    now destruct (generate_handler_sends w1 pv1 (clear_output W1) Hclick Hacc) as [-> _].
  - intros Hclick Hacc.
    destruct (generate_handler_sends w2 pv2 (clear_output W2) Hclick Hacc) as [-> _].
    now rewrite Hsame.
Qed.

Lemma C3_prompt_builder_pure_witness :
  exists p : string,
    build_prompt cs101 answering initial_world = (Ok p, initial_world)
    /\ build_prompt cs101_again out_of_quota
         (rerun answering quiz_me (rerun answering cs101 initial_world))
       = (Ok p, rerun answering quiz_me (rerun answering cs101 initial_world))
    /\ sent (output (snd (generate_handler cs101 answering
                            (clear_output initial_world)))) = [p]
    /\ sent (output (snd (generate_handler cs101_again out_of_quota
                            (clear_output
                               (rerun answering quiz_me
                                  (rerun answering cs101 initial_world)))))) = [p].
Proof.
  destruct (C3_prompt_builder_pure cs101 cs101_again answering out_of_quota
              initial_world
              (rerun answering quiz_me (rerun answering cs101 initial_world))
              eq_refl eq_refl eq_refl)
    as (p & H1 & H2 & H3 & H4).
  exists p. repeat split; [exact H1 | exact H2 | apply H3 | apply H4]; reflexivity.
Defined.

Lemma join_concat (sep : string) (parts : list string) :
  join sep parts = String.concat sep parts.
Proof.
  induction parts as [|p [|q rest] IH]; cbn in *; congruence.
Qed.

(** C4: with files uploaded, the prompt contains their names joined by a
    comma and a space, in upload order; with none, it contains the fixed
    sentence saying that no files were provided. *)
Theorem C4_file_names_joined (cn tl : string) (files : list UploadedFile) :
  exists p : string,
    final_prompt cn tl files = Ok p
    /\ (files <> [] -> contains (join ", " (map name files)) p)
    /\ (files = [] -> contains no_files_placeholder p).
Proof.
  exists (prompt_of cn tl (file_names_str (map name files))).
  split; [apply final_prompt_eq|]. split.
  - intros Hne. destruct files as [|f fs]; [congruence|].
    apply prompt_of_contains_files.
  - intros ->. apply prompt_of_contains_files.
Qed.

Lemma C4_file_names_joined_witness :
  (exists p : string,
      final_prompt "CS101" "Recursion" [a_pdf; b_txt] = Ok p
      /\ contains "a.pdf, b.txt" p)
  /\ (exists p : string,
         final_prompt "CS101" "Recursion" [] = Ok p
         /\ contains "No files provided. Using topic list only." p).
Proof.
  split.
  - destruct (C4_file_names_joined "CS101" "Recursion" [a_pdf; b_txt])
      as (p & Hp & Hsome & _).
    exists p. split; [exact Hp|]. apply Hsome. discriminate.
  - destruct (C4_file_names_joined "CS101" "Recursion" [])
      as (p & Hp & _ & Hnone).
    exists p. split; [exact Hp|]. apply Hnone. reflexivity.
Defined.

Lemma chat_interface_ext (w1 w2 : Widgets) (pv : Provider) (W : World) :
  chat_input w1 = chat_input w2 ->
  chat_interface w1 pv W = chat_interface w2 pv W.
Proof.
  intros Hin. unfold chat_interface. now rewrite Hin.
Qed.

(** C7: the contents of the uploaded files play no part.  Widget values
    that agree on everything but the contents of the files give the same
    prompt and the same rerun: the same session state, the same output and
    the same messages to the provider. *)
Theorem C7_file_contents_unused
    (w1 w2 : Widgets) (pv : Provider) (W : World) :
  api_key w1 = api_key w2 ->
  class_name w1 = class_name w2 ->
  topic_list w1 = topic_list w2 ->
  map name (uploaded_files w1) = map name (uploaded_files w2) ->
  generate_clicked w1 = generate_clicked w2 ->
  chat_input w1 = chat_input w2 ->
  final_prompt (class_name w1) (topic_list w1) (uploaded_files w1)
  = final_prompt (class_name w2) (topic_list w2) (uploaded_files w2)
  /\ script w1 pv W = script w2 pv W
  /\ rerun pv w1 W = rerun pv w2 W.
Proof.
  intros Hkey Hcn Htl Hnames Hclick Hin.
  assert (Hprompt : final_prompt (class_name w1) (topic_list w1) (uploaded_files w1)
                    = final_prompt (class_name w2) (topic_list w2) (uploaded_files w2))
    by (rewrite !final_prompt_eq; now rewrite Hcn, Htl, Hnames).
  assert (Hgen : forall W0, generate_handler w1 pv W0 = generate_handler w2 pv W0).
  { intros W0. unfold generate_handler, generate_try, build_prompt.
    now rewrite Hprompt, Hkey, Hcn, Htl, Hclick. }
  assert (Hscript : forall W0, script w1 pv W0 = script w2 pv W0).
  { intros W0. rewrite !script_run, Hgen. now apply chat_interface_ext. }
  split; [exact Hprompt|]. split; [apply Hscript|].
  unfold rerun. now rewrite Hscript.
Qed.

Lemma C7_file_contents_unused_witness :
  [a_pdf; b_txt] <> [a_pdf_other; b_txt_other]
  /\ final_prompt "CS101" "Recursion" [a_pdf; b_txt]
     = final_prompt "CS101" "Recursion" [a_pdf_other; b_txt_other]
  /\ rerun answering (with_files [a_pdf; b_txt]) initial_world
     = rerun answering (with_files [a_pdf_other; b_txt_other]) initial_world.
Proof.
  split; [discriminate|].
  destruct (C7_file_contents_unused (with_files [a_pdf; b_txt])
              (with_files [a_pdf_other; b_txt_other]) answering initial_world
              eq_refl eq_refl eq_refl eq_refl eq_refl eq_refl)
    as (Hprompt & _ & Hrerun).
  split; [exact Hprompt | exact Hrerun].
Defined.

(** C8: for widget values that pass the check of lines 96 to 99, the
    prompt exists and contains the course name and the topic list as they
    were typed; with no file uploaded it also contains the sentence saying
    so. *)
Theorem C8_prompt_contains_course_and_topics (w : Widgets) :
  accepted w = true ->
  exists p : string,
    final_prompt (class_name w) (topic_list w) (uploaded_files w) = Ok p
    /\ contains (class_name w) p
    /\ contains (topic_list w) p
    /\ (uploaded_files w = [] -> contains no_files_placeholder p)
    /\ (generate_clicked w = true ->
        forall (pv : Provider) (W : World),
          sent (output (snd (generate_handler w pv (clear_output W)))) = [p]).
Proof.
  intros Hacc. exists (prompt_for w). unfold prompt_for at 1.
  split; [apply final_prompt_eq|].
  split; [apply prompt_of_contains_course|].
  split; [apply prompt_of_contains_topics|].
  split; [intros Hnone; unfold prompt_for; rewrite Hnone;
          apply prompt_of_contains_files|].
  intros Hclick pv W.
  now destruct (generate_handler_sends w pv (clear_output W) Hclick Hacc) as [-> _].
Qed.

Lemma C8_prompt_contains_course_and_topics_witness :
  exists p : string,
    final_prompt "CS101" "Recursion" [] = Ok p
    /\ contains "CS101" p
    /\ contains "Recursion" p
    /\ contains "No files provided. Using topic list only." p
    /\ sent (output (snd (generate_handler cs101 answering
                            (clear_output initial_world)))) = [p].
Proof.
  destruct (C8_prompt_contains_course_and_topics cs101 eq_refl)
    as (p & Hp & Hcn & Htl & Hnone & Hsent).
  exists p.
  repeat split;
    [exact Hp | exact Hcn | exact Htl | now apply Hnone | now apply Hsent].
Defined.

(** ** The check of the configuration *)

Lemma accepted_true_iff (w : Widgets) :
  accepted w = true
  <-> api_key w <> EmptyString /\ class_name w <> EmptyString
      /\ topic_list w <> EmptyString.
Proof.
  unfold accepted. rewrite !andb_true_iff, !truthy_nonempty. tauto.
Qed.

Lemma accepted_false_iff (w : Widgets) :
  accepted w = false
  <-> api_key w = EmptyString \/ class_name w = EmptyString
      \/ topic_list w = EmptyString.
Proof.
  unfold accepted. rewrite !andb_false_iff, !truthy_false_empty. tauto.
Qed.

(** C5: when the generate action is triggered with an empty API key, course
    name or topic list, the handler only shows the configuration error: the
    session state and the count of provider calls are as before, nothing is
    sent, and neither the provider nor the uploaded files are consulted.  A
    provider call made by the handler implies that all three are non-empty,
    and then the call carries the prompt built from them. *)
Theorem C5_empty_field_rejected (w : Widgets) (pv : Provider) (W : World) :
  generate_clicked w = true ->
  (api_key w = EmptyString \/ class_name w = EmptyString
   \/ topic_list w = EmptyString ->
   generate_handler w pv W
   = (Ok tt,
      {| session_state := session_state W;
         output := (output W ++ [st_error (configuration_error w)])%list;
         calls := calls W;
         chats := chats W |})
   /\ sent (output (snd (generate_handler w pv W))) = sent (output W))
  /\ (calls (snd (generate_handler w pv W)) <> calls W ->
      api_key w <> EmptyString /\ class_name w <> EmptyString
      /\ topic_list w <> EmptyString)
  /\ (api_key w <> EmptyString -> class_name w <> EmptyString ->
      topic_list w <> EmptyString ->
      calls (snd (generate_handler w pv W)) = S (calls W)
      /\ sent (output (snd (generate_handler w pv W)))
         = (sent (output W) ++ [prompt_for w])%list).
Proof.
  intros Hclick. split; [|split].
  - intros Hempty. apply accepted_false_iff in Hempty.
    rewrite (generate_handler_rejects w pv W Hclick Hempty). split; [reflexivity|].
    cbn. rewrite sent_app. cbn. apply app_nil_r.
  - intros Hcalls. apply accepted_true_iff.
    destruct (accepted w) eqn:Hacc; [reflexivity|].
    rewrite (generate_handler_rejects w pv W Hclick Hacc) in Hcalls.
    now contradiction Hcalls.
  - intros Hk Hcn Htl.
    assert (Hacc : accepted w = true) by (apply accepted_true_iff; auto).
    destruct (generate_handler_sends w pv W Hclick Hacc) as [Hsent Hcalls].
    now split.
Qed.

Lemma C5_empty_field_rejected_witness :
  generate_handler no_course answering initial_world
  = (Ok tt,
     {| session_state := session_state initial_world;
        output := [st_error "Please provide the Course Name and Topic List."];
        calls := 0;
        chats := 0 |})
  /\ calls (snd (generate_handler cs101 answering initial_world)) = 1
  /\ sent (output (snd (generate_handler cs101 answering initial_world)))
     = [prompt_for cs101].
Proof.
  destruct (C5_empty_field_rejected no_course answering initial_world eq_refl)
    as (Hreject & _ & _).
  destruct (C5_empty_field_rejected cs101 answering initial_world eq_refl)
    as (_ & _ & Haccept).
  split.
  - apply Hreject. right. left. reflexivity.
  - apply Haccept; discriminate.
Defined.

(** ** Whitespace *)

Lemma whitespace_only_truthy (s : string) :
  whitespace_only s = true -> truthy s = true.
Proof.
  unfold whitespace_only. now intros [Ht _]%andb_prop.
Qed.

(** C9: the check rejects exactly the empty string.  A course name or a
    topic list made of whitespace alone is truthy, so with the other fields
    filled in the handler goes on: the text sent to the provider is the
    template with the whitespace value in place of its field, character for
    character. *)
Theorem C9_whitespace_passes (w : Widgets) (pv : Provider) (W : World) :
  generate_clicked w = true ->
  api_key w <> EmptyString ->
  (whitespace_only (class_name w) = true /\ topic_list w <> EmptyString)
  \/ (class_name w <> EmptyString /\ whitespace_only (topic_list w) = true) ->
  (forall w', accepted w' = false
              <-> api_key w' = EmptyString \/ class_name w' = EmptyString
                  \/ topic_list w' = EmptyString)
  /\ (forall s, whitespace_only s = true -> truthy s = true)
  /\ accepted w = true
  /\ build_prompt w pv W
     = (Ok (text_to_course ++ class_name w ++ text_course_to_files
            ++ file_names_str (map name (uploaded_files w))
            ++ text_files_to_topics ++ topic_list w ++ text_after_topics), W)
  /\ sent (output (snd (generate_handler w pv (clear_output W))))
     = [text_to_course ++ class_name w ++ text_course_to_files
        ++ file_names_str (map name (uploaded_files w))
        ++ text_files_to_topics ++ topic_list w ++ text_after_topics].
Proof.
  intros Hclick Hk Hblank.
  assert (Hacc : accepted w = true).
  { apply accepted_true_iff. rewrite <- !truthy_nonempty in *.
    destruct Hblank as [[Hcn Htl] | [Hcn Htl]];
      auto using whitespace_only_truthy. }
  split; [exact accepted_false_iff|].
  split; [exact whitespace_only_truthy|].
  split; [exact Hacc|]. split.
  - unfold build_prompt, lift. now rewrite final_prompt_eq.
  - now destruct (generate_handler_sends w pv (clear_output W) Hclick Hacc) as [-> _].
Qed.

Lemma C9_whitespace_passes_witness :
  accepted blank_course = true
  /\ sent (output (snd (generate_handler blank_course answering
                          (clear_output initial_world))))
     = [text_to_course ++ "   " ++ text_course_to_files
        ++ no_files_placeholder
        ++ text_files_to_topics ++ "Recursion" ++ text_after_topics].
Proof.
  destruct (C9_whitespace_passes blank_course answering initial_world)
    as (_ & _ & Hacc & _ & Hsent).
  - reflexivity.
  - discriminate.
  - left. split; [reflexivity | discriminate].
  - split; [exact Hacc | exact Hsent].
Defined.

(** ** Replacing a session *)

(** C6: a generate action that succeeds in a session that already has a
    transcript stores a chat session that is not the earlier one and a
    transcript holding the new first reply and nothing else: whatever the
    earlier transcript held is gone. *)
Theorem C6_generate_replaces_session
    (pv : Provider) (w : Widgets) (W : World) (old : list Message)
    (reply : string) :
  reachable pv W ->
  messages (session_state W) = Some old ->
  generate_clicked w = true ->
  accepted w = true ->
  submitted w = None ->
  reply_of (pv (calls W) (chats W) (prompt_for w)) = Ok reply ->
  session_state (rerun pv w W)
  = {| gemini_chat := Some (chats W);
       messages := Some [{| role := assistant; content := reply |}] |}
  /\ exists c_old, gemini_chat (session_state W) = Some c_old
                   /\ c_old <> chats W.
Proof.
  intros Hreach Hold Hclick Hacc Hsub Hreply. split.
  - unfold rerun. rewrite script_run.
    rewrite (generate_handler_ok w pv (clear_output W) reply Hclick Hacc Hreply).
    cbn [snd].
    erewrite chat_interface_no_input; [reflexivity | reflexivity | assumption].
  - destruct (reachable_inv _ _ Hreach) as [Hm Hfresh].
    destruct (Hm _ Hold) as [c Hc]. exists c. split; [exact Hc|].
    specialize (Hfresh _ Hc). lia.
Qed.

Lemma C6_generate_replaces_session_witness :
  messages (session_state
              (rerun answering quiz_me (rerun answering cs101 initial_world)))
  = Some [R1_entry; {| role := user; content := "quiz me" |};
          {| role := assistant; content := "R2" |}]
  /\ session_state
       (rerun answering cs101_again
          (rerun answering quiz_me (rerun answering cs101 initial_world)))
     = {| gemini_chat := Some 1;
          messages := Some [{| role := assistant; content := "R2" |}] |}.
Proof.
  split; [vm_compute; reflexivity|].
  apply (C6_generate_replaces_session answering cs101_again
           (rerun answering quiz_me (rerun answering cs101 initial_world))
           [R1_entry; {| role := user; content := "quiz me" |};
            {| role := assistant; content := "R2" |}] "R2");
    try (vm_compute; reflexivity).
  apply reach_rerun, reach_rerun, reach_initial.
Defined.

(** ** A transcript implies a chat session *)

Lemma no_attribute_error_shown (ms : list Message) :
  no_attribute_error (map shown ms).
Proof.
  unfold no_attribute_error. apply Forall_forall.
  intros ev (m & <- & _)%in_map_iff. cbn. tauto.
Qed.

Ltac no_attribute_error_tac :=
  unfold no_attribute_error in *;
  repeat first
    [ assumption
    | apply no_attribute_error_shown
    | apply Forall_app; split
    | apply Forall_cons; [cbn; tauto|]
    | apply Forall_nil ].

Lemma no_attribute_error_generate (w : Widgets) (pv : Provider) (W : World) :
  no_attribute_error (output W) ->
  no_attribute_error (output (snd (generate_handler w pv W))).
Proof.
  intros Hout.
  destruct (generate_clicked w) eqn:Hclick;
    [|now rewrite generate_handler_idle].
  destruct (accepted w) eqn:Hacc;
    [|rewrite generate_handler_rejects by assumption; cbn;
      no_attribute_error_tac].
  destruct (reply_of_cases (pv (calls W) (chats W) (prompt_for w)))
    as [(reply & Hr) | (e & Hr & Hne)].
  - rewrite (generate_handler_ok _ _ _ _ Hclick Hacc Hr). cbn.
    unfold generate_events. no_attribute_error_tac.
  - destruct (generate_handler_fail _ _ _ _ Hclick Hacc Hr) as (ss & -> & _).
    cbn. unfold generate_events.
    unfold no_attribute_error in *.
    apply Forall_app; split; [assumption|].
    repeat (apply Forall_cons; [cbn; try tauto|]); [|apply Forall_nil].
    destruct e as [| | |a|]; try tauto. intros _. exact (Hne a eq_refl).
Qed.

Lemma no_attribute_error_chat (w : Widgets) (pv : Provider) (W : World) :
  session_inv W ->
  no_attribute_error (output W) ->
  no_attribute_error (output (snd (chat_interface w pv W))).
Proof.
  intros [Hm _] Hout.
  destruct (messages (session_state W)) as [ms|] eqn:Hms;
    [|now rewrite chat_interface_hidden].
  destruct (Hm _ eq_refl) as [c Hchat].
  destruct (submitted w) as [p|] eqn:Hsub;
    [|rewrite (chat_interface_no_input _ _ _ _ Hms Hsub); cbn;
      no_attribute_error_tac].
  rewrite (chat_interface_send _ _ _ _ _ _ Hms Hchat Hsub).
  destruct (reply_of_cases (pv (calls W) c p)) as [(reply & ->) | (e & -> & Hne)];
    cbn; [no_attribute_error_tac|].
  unfold no_attribute_error in *.
  apply Forall_app; split; [assumption|].
  apply Forall_app; split; [apply no_attribute_error_shown|].
  repeat (apply Forall_cons; [cbn; try tauto|]); [|apply Forall_nil].
  destruct e as [| | |a|]; try tauto. intros _. exact (Hne a eq_refl).
Qed.

(** C10: in every state a session can reach, a stored transcript comes with
    a stored chat session.  In any rerun from such a state the chat
    interface does nothing when there is no transcript; when there is one,
    the read of [st.session_state.gemini_chat] of line 156 returns the
    stored session; and no rerun ever reports an [AttributeError]: a send
    always has a session to go to. *)
Theorem C10_transcript_implies_session (pv : Provider) (W : World) :
  reachable pv W ->
  (forall ms, messages (session_state W) = Some ms ->
              exists c, gemini_chat (session_state W) = Some c)
  /\ (forall (w : Widgets) (ms : list Message),
         let W' := snd (generate_handler w pv (clear_output W)) in
         messages (session_state W') = Some ms ->
         exists c, get_gemini_chat pv W' = (Ok c, W'))
  /\ (forall (w : Widgets),
         let W' := snd (generate_handler w pv (clear_output W)) in
         messages (session_state W') = None ->
         chat_interface w pv W' = (Ok tt, W'))
  /\ (forall (w : Widgets) (ev : Event),
         In ev (output (rerun pv w W)) -> ~ reports_attribute_error ev).
Proof.
  intros Hreach. pose proof (reachable_inv _ _ Hreach) as Hinv.
  split; [exact (proj1 Hinv)|]. split.
  - intros w ms W' Hms.
    assert (Hinv' : session_inv W')
      by (apply session_inv_generate, session_inv_clear, Hinv).
    destruct (proj1 Hinv' _ Hms) as [c Hc]. exists c.
    unfold get_gemini_chat. run_monad. now rewrite Hc.
  - split; [intros w W' Hnone; now apply chat_interface_hidden|].
    intros w. apply Forall_forall. unfold rerun. rewrite script_run.
    apply no_attribute_error_chat.
    + apply session_inv_generate, session_inv_clear, Hinv.
    + apply no_attribute_error_generate. apply Forall_nil.
Qed.

Lemma C10_transcript_implies_session_witness :
  (exists c, gemini_chat (session_state (rerun answering cs101 initial_world))
             = Some c)
  /\ ~ reports_attribute_error
         (st_error_exn "An error occurred while communicating with the AI: "
                       (ProviderError "quota exceeded")).
Proof.
  destruct (C10_transcript_implies_session out_of_quota
              (rerun out_of_quota cs101 initial_world))
    as (_ & _ & _ & Hquiet); [apply reach_rerun, reach_initial|].
  destruct (C10_transcript_implies_session answering
              (rerun answering cs101 initial_world))
    as (Hchat & _ & _ & _); [apply reach_rerun, reach_initial|].
  split.
  - apply (Hchat [R1_entry]). vm_compute. reflexivity.
  - apply (Hquiet quiz_me). vm_compute. auto 10.
Defined.

(** Without the invariant the read of line 156 does fail: a state with a
    transcript and no chat session, which no session reaches, makes a send
    report the [AttributeError]. *)
Lemma chat_without_session_reports :
  let W := {| session_state := {| gemini_chat := None; messages := Some [R1_entry] |};
              output := []; calls := 0; chats := 0 |} in
  In (st_error_exn "An error occurred while communicating with the AI: "
                   (AttributeError "gemini_chat"))
     (output (rerun answering quiz_me W))
  /\ ~ reachable answering W.
Proof.
  cbv zeta. split; [vm_compute; auto 10|].
  intros Hreach. destruct (reachable_inv _ _ Hreach) as [Hm _].
  destruct (Hm [R1_entry] eq_refl) as [c Hc]. discriminate Hc.
Qed.

(** * Further properties of the script *)

(** ** No exception escapes a rerun *)

Lemma chat_interface_returns (w : Widgets) (pv : Provider) (W : World) :
  fst (chat_interface w pv W) = Ok tt.
Proof.
  destruct (messages (session_state W)) as [ms|] eqn:Hms;
    [|now rewrite chat_interface_hidden].
  destruct (submitted w) as [p|] eqn:Hsub;
    [|now rewrite (chat_interface_no_input _ _ _ _ Hms Hsub)].
  destruct (gemini_chat (session_state W)) as [c|] eqn:Hchat.
  - rewrite (chat_interface_send _ _ _ _ _ _ Hms Hchat Hsub).
    now destruct (reply_of _).
  - now rewrite (chat_interface_no_session _ _ _ _ _ Hms Hchat Hsub).
Qed.

(** X1: a rerun of the script ends normally in every world, reachable or
    not, whatever the widgets hold and whatever the provider does: the
    [except] clauses catch what the provider and the formatting raise, and
    the append of line 150, which stands outside the [try], is guarded by
    the test of line 139. *)
Theorem script_never_raises (w : Widgets) (pv : Provider) (W : World) :
  fst (script w pv W) = Ok tt.
Proof.
  rewrite script_run. apply chat_interface_returns.
Qed.

(** ** Failure of the generate action *)





(** ** The transcript only grows *)

(** What the generate handler does to the transcript, in every case. *)
Lemma generate_handler_transcript (w : Widgets) (pv : Provider) (W : World) :
  messages (session_state (snd (generate_handler w pv W)))
  = match generate_reply pv w W with
    | Some reply => Some [assistant_says reply]
    | None => messages (session_state W)
    end.
Proof.
  unfold generate_reply.
  destruct (generate_clicked w) eqn:Hclick;
    [|now rewrite generate_handler_idle].
  destruct (accepted w) eqn:Hacc;
    [|now rewrite generate_handler_rejects]. cbn [andb].
  destruct (reply_of (pv (calls W) (chats W) (prompt_for w))) as [reply|e] eqn:Hr.
  - now rewrite (generate_handler_ok _ _ _ _ Hclick Hacc Hr).
  - destruct (generate_handler_fail _ _ _ _ Hclick Hacc Hr) as (ss & -> & [-> | ->]);
      reflexivity.
Qed.

(** What the chat interface does to the transcript, in every case. *)
Lemma chat_interface_extends (w : Widgets) (pv : Provider) (W : World)
    (ms : list Message) :
  messages (session_state W) = Some ms ->
  exists tail,
    messages (session_state (snd (chat_interface w pv W))) = Some (ms ++ tail)%list
    /\ send_tail w tail.
Proof.
  intros Hms. unfold send_tail.
  destruct (submitted w) as [p|] eqn:Hsub.
  - destruct (gemini_chat (session_state W)) as [c|] eqn:Hchat.
    + rewrite (chat_interface_send _ _ _ _ _ _ Hms Hchat Hsub).
      destruct (reply_of _) as [reply|e]; eexists; (split; [reflexivity|]);
        right; exists p; eauto.
    + rewrite (chat_interface_no_session _ _ _ _ _ Hms Hchat Hsub).
      eexists; split; [reflexivity|]. right; exists p; eauto.
  - rewrite (chat_interface_no_input _ _ _ _ Hms Hsub).
    exists []. rewrite app_nil_r. auto.
Qed.

Lemma send_tail_length (w : Widgets) (tail : list Message) :
  send_tail w tail -> List.length tail <= 2.
Proof.
  intros [-> | (p & _ & [-> | (r & ->)])]; cbn; lia.
Qed.

Lemma rerun_transcript (pv : Provider) (w : Widgets) (W : World) (ms : list Message) :
  messages (session_state W) = Some ms ->
  exists tail,
    send_tail w tail
    /\ List.length tail <= 2
    /\ messages (session_state (rerun pv w W))
       = match generate_reply pv w W with
         | Some reply => Some (assistant_says reply :: tail)
         | None => Some (ms ++ tail)%list
         end.
Proof.
  intros Hms. unfold rerun. rewrite script_run.
  pose proof (generate_handler_transcript w pv (clear_output W)) as Hgen.
  change (generate_reply pv w (clear_output W)) with (generate_reply pv w W) in Hgen.
  change (messages (session_state (clear_output W)))
    with (messages (session_state W)) in Hgen.
  destruct (generate_reply pv w W) as [reply|].
  - destruct (chat_interface_extends w pv _ _ Hgen) as (tail & -> & Htail).
    exists tail. eauto using send_tail_length.
  - rewrite Hms in Hgen.
    destruct (chat_interface_extends w pv _ _ Hgen) as (tail & -> & Htail).
    exists tail. eauto using send_tail_length.
Qed.

(** X3: a rerun never removes or rewrites an entry.  Unless a generate
    action goes through in it, the transcript after the rerun is the one
    before it followed by at most two entries: the user's message, and
    after it the reply if the send succeeded.  When a generate action goes
    through, the transcript restarts from the first reply. *)
Theorem transcript_append_only
    (pv : Provider) (w : Widgets) (W : World) (ms : list Message) :
  messages (session_state W) = Some ms ->
  exists tail,
    send_tail w tail
    /\ List.length tail <= 2
    /\ messages (session_state (rerun pv w W))
       = match generate_reply pv w W with
         | Some reply => Some (assistant_says reply :: tail)
         | None => Some (ms ++ tail)%list
         end.
Proof.
  intros Hms. destruct (rerun_transcript pv w W ms Hms) as (tail & Hshape & Hlen & Hrun).
  exists tail. split; [exact Hshape|]. split; [exact Hlen | exact Hrun].
Qed.

Lemma transcript_append_only_witness :
  exists tail,
    List.length tail <= 2
    /\ messages (session_state
                   (rerun flaky quiz_me (rerun flaky cs101 initial_world)))
       = Some ([R1_entry] ++ tail)%list.
Proof.
  destruct (transcript_append_only flaky quiz_me (rerun flaky cs101 initial_world)
              [R1_entry]) as (tail & _ & Hlen & Hms); [vm_compute; reflexivity|].
  exists tail. split; [exact Hlen | exact Hms].
Defined.

(** ** What is shown is what is stored *)

Lemma chat_events_app (a b : list Event) :
  chat_events (a ++ b) = (chat_events a ++ chat_events b)%list.
Proof.
  induction a as [|ev a IH]; [reflexivity|].
  destruct ev; cbn; now rewrite IH.
Qed.

Lemma chat_events_shown (ms : list Message) :
  chat_events (map shown ms) = map shown ms.
Proof.
  induction ms as [|m ms IH]; cbn; [reflexivity | now rewrite IH].
Qed.

Lemma chat_events_generate (w : Widgets) (pv : Provider) (W : World) :
  chat_events (output (snd (generate_handler w pv W))) = chat_events (output W).
Proof.
  destruct (generate_clicked w) eqn:Hclick;
    [|now rewrite generate_handler_idle].
  destruct (accepted w) eqn:Hacc.
  - destruct (reply_of_cases (pv (calls W) (chats W) (prompt_for w)))
      as [(reply & Hr) | (e & Hr & _)].
    + rewrite (generate_handler_ok _ _ _ _ Hclick Hacc Hr). cbn.
      rewrite chat_events_app. cbn. apply app_nil_r.
    + destruct (generate_handler_fail _ _ _ _ Hclick Hacc Hr) as (ss & -> & _).
      cbn. rewrite chat_events_app. cbn. apply app_nil_r.
  - rewrite generate_handler_rejects by assumption. cbn.
    rewrite chat_events_app. cbn. apply app_nil_r.
Qed.

Lemma chat_events_chat (w : Widgets) (pv : Provider) (W : World) :
  chat_events (output (snd (chat_interface w pv W)))
  = (chat_events (output W)
     ++ map shown (transcript (snd (chat_interface w pv W))))%list.
Proof.
  unfold transcript.
  destruct (messages (session_state W)) as [ms|] eqn:Hms.
  - destruct (submitted w) as [p|] eqn:Hsub.
    + destruct (gemini_chat (session_state W)) as [c|] eqn:Hchat.
      * rewrite (chat_interface_send _ _ _ _ _ _ Hms Hchat Hsub).
        destruct (reply_of _) as [reply|e]; cbn;
          rewrite !chat_events_app, chat_events_shown, map_app; reflexivity.
      * rewrite (chat_interface_no_session _ _ _ _ _ Hms Hchat Hsub). cbn.
        rewrite !chat_events_app, chat_events_shown, map_app. reflexivity.
    + rewrite (chat_interface_no_input _ _ _ _ Hms Hsub). cbn. rewrite Hms.
      now rewrite chat_events_app, chat_events_shown.
  - rewrite chat_interface_hidden by assumption. cbn. rewrite Hms.
    now rewrite app_nil_r.
Qed.

(** X4: the chat bubbles a rerun draws are, in order, exactly the entries
    of the transcript as it is stored when the rerun ends; this holds in
    every world, whether the send succeeded, failed or did not happen, and
    nothing is drawn while there is no transcript. *)
Theorem shown_is_stored (pv : Provider) (w : Widgets) (W : World) :
  chat_events (output (rerun pv w W)) = map shown (transcript (rerun pv w W)).
Proof.
  unfold rerun. rewrite script_run, chat_events_chat, chat_events_generate.
  reflexivity.
Qed.

(** ** The shape of a transcript *)

Lemma submitted_truthy (w : Widgets) (p : string) :
  submitted w = Some p -> truthy p = true.
Proof.
  unfold submitted. destruct (chat_input w) as [q|]; [|discriminate].
  destruct (truthy q) eqn:Hq; [|discriminate]. now intros [= <-].
Qed.

Lemma starts_with_assistant_app (ms tail : list Message) :
  starts_with_assistant ms = true -> starts_with_assistant (ms ++ tail) = true.
Proof.
  destruct ms; [discriminate | trivial].
Qed.

Lemma no_adjacent_assistant_user (ms : list Message) (p : string) :
  no_adjacent_assistant ms = true ->
  no_adjacent_assistant (ms ++ [user_says p]) = true.
Proof.
  induction ms as [|m [|m' rest] IH]; intros Hok.
  - reflexivity.
  - cbn. now rewrite andb_false_r.
  - cbn [app no_adjacent_assistant] in *.
    apply andb_prop in Hok as [Hhead Hrest].
    rewrite Hhead. now apply IH.
Qed.

Lemma no_adjacent_assistant_exchange (ms : list Message) (p r : string) :
  no_adjacent_assistant ms = true ->
  no_adjacent_assistant (ms ++ [user_says p; assistant_says r]) = true.
Proof.
  induction ms as [|m [|m' rest] IH]; intros Hok.
  - reflexivity.
  - cbn. now rewrite andb_false_r.
  - cbn [app no_adjacent_assistant] in *.
    apply andb_prop in Hok as [Hhead Hrest].
    rewrite Hhead. now apply IH.
Qed.

Lemma transcript_ok_first (reply : string) : transcript_ok [assistant_says reply].
Proof.
  repeat split.
Qed.

Lemma transcript_ok_tail (w : Widgets) (ms tail : list Message) :
  transcript_ok ms -> send_tail w tail -> transcript_ok (ms ++ tail).
Proof.
  intros (Hfirst & Hadj & Huser) Htail. unfold transcript_ok, user_entries_nonempty in *.
  destruct Htail as [-> | (p & Hsub & [-> | (r & ->)])].
  - now rewrite app_nil_r.
  - apply submitted_truthy in Hsub.
    repeat split.
    + now apply starts_with_assistant_app.
    + now apply no_adjacent_assistant_user.
    + rewrite forallb_app, Huser. cbn. now rewrite Hsub.
  - apply submitted_truthy in Hsub.
    repeat split.
    + now apply starts_with_assistant_app.
    + now apply no_adjacent_assistant_exchange.
    + rewrite forallb_app, Huser. cbn. now rewrite Hsub.
Qed.

Lemma reachable_transcript_ok (pv : Provider) (W : World) :
  reachable pv W ->
  forall ms, messages (session_state W) = Some ms -> transcript_ok ms.
Proof.
  induction 1 as [|w W Hreach IH]; [discriminate|].
  intros ms' Hms'.
  destruct (messages (session_state W)) as [ms|] eqn:Hms.
  - destruct (rerun_transcript pv w W ms Hms) as (tail & Htail & _ & Hrun).
    rewrite Hrun in Hms'.
    destruct (generate_reply pv w W) as [reply|]; injection Hms' as <-.
    + apply (transcript_ok_tail w [assistant_says reply] tail);
        [apply transcript_ok_first | exact Htail].
    + apply (transcript_ok_tail w); [now apply IH | exact Htail].
  - unfold rerun in Hms'. rewrite script_run in Hms'.
    pose proof (generate_handler_transcript w pv (clear_output W)) as Hgen.
    change (generate_reply pv w (clear_output W)) with (generate_reply pv w W) in Hgen.
    change (messages (session_state (clear_output W)))
      with (messages (session_state W)) in Hgen.
    rewrite Hms in Hgen.
    destruct (generate_reply pv w W) as [reply|].
    + destruct (chat_interface_extends w pv _ _ Hgen) as (tail & Hrun & Htail).
      rewrite Hrun in Hms'. injection Hms' as <-.
      apply (transcript_ok_tail w [assistant_says reply] tail);
        [apply transcript_ok_first | exact Htail].
    + rewrite chat_interface_hidden in Hms' by assumption.
      cbn in Hms'. congruence.
Qed.



(** X6: in every reachable state no assistant entry of the transcript
    directly follows another one: between two replies there is always a
    message of the user. *)
Theorem transcript_replies_are_answers
    (pv : Provider) (W : World) (before after : list Message) (m m' : Message) :
  reachable pv W ->
  messages (session_state W) = Some (before ++ m :: m' :: after)%list ->
  role m = assistant ->
  role m' = user.
Proof.
  intros Hreach Hms Hm.
  destruct (reachable_transcript_ok pv W Hreach _ Hms) as (_ & Hadj & _).
  clear Hms Hreach. induction before as [|b before IH].
  - cbn in Hadj. unfold is_assistant in Hadj. rewrite Hm in Hadj.
    destruct (role m'); [reflexivity | discriminate].
  - apply IH. cbn [app no_adjacent_assistant] in Hadj.
    now apply andb_prop in Hadj as [_ Hrest].
Qed.

Lemma transcript_replies_are_answers_witness :
  role (user_says "quiz me") = user.
Proof.
  apply (transcript_replies_are_answers answering
           (rerun answering quiz_me (rerun answering cs101 initial_world))
           [] [assistant_says "R2"] R1_entry (user_says "quiz me")).
  - apply reach_rerun, reach_rerun, reach_initial.
  - vm_compute. reflexivity.
  - reflexivity.
Defined.

(** X7: in every reachable state every user entry of the transcript has a
    text: an empty submission of the chat box is not stored (line 148). *)
Theorem transcript_user_entries_nonempty
    (pv : Provider) (W : World) (ms : list Message) (m : Message) :
  reachable pv W ->
  messages (session_state W) = Some ms ->
  In m ms ->
  role m = user ->
  content m <> EmptyString.
Proof.
  intros Hreach Hms Hin Hrole.
  destruct (reachable_transcript_ok pv W Hreach ms Hms) as (_ & _ & Huser).
  unfold user_entries_nonempty in Huser. rewrite forallb_forall in Huser.
  specialize (Huser m Hin). unfold is_assistant in Huser. rewrite Hrole in Huser.
  now apply truthy_nonempty.
Qed.

Lemma transcript_user_entries_nonempty_witness :
  messages (session_state
              (rerun answering quiz_me (rerun answering cs101 initial_world)))
  = Some [R1_entry; user_says "quiz me"; assistant_says "R2"]
  /\ content (user_says "quiz me") <> EmptyString.
Proof.
  split; [vm_compute; reflexivity|].
  apply (transcript_user_entries_nonempty answering
           (rerun answering quiz_me (rerun answering cs101 initial_world))
           [R1_entry; user_says "quiz me"; assistant_says "R2"]).
  - apply reach_rerun, reach_rerun, reach_initial.
  - vm_compute. reflexivity.
  - right. left. reflexivity.
  - reflexivity.
Defined.

(** ** What a rerun reads *)

(** X8: a rerun in which the button is not clicked reads the chat box and
    nothing else of the form.  Editing the API key, the course name, the
    topic list or the uploads while chatting changes neither the state, nor
    the output, nor what is sent. *)
Theorem chat_ignores_the_form (pv : Provider) (w1 w2 : Widgets) (W : World) :
  generate_clicked w1 = false ->
  generate_clicked w2 = false ->
  chat_input w1 = chat_input w2 ->
  rerun pv w1 W = rerun pv w2 W.
Proof.
  intros Hc1 Hc2 Hin. rewrite !rerun_idle_generate by assumption.
  now rewrite (chat_interface_ext w1 w2 pv _ Hin).
Qed.

Lemma chat_ignores_the_form_witness :
  rerun answering quiz_me (rerun answering cs101 initial_world)
  = rerun answering quiz_me_edited (rerun answering cs101 initial_world).
Proof.
  apply (chat_ignores_the_form answering quiz_me quiz_me_edited); reflexivity.
Defined.




(** ** A rerun without an action *)





(** ** The two handlers in one rerun *)

(** X11: when one rerun carries both a click that goes through and a chat
    message, the message is sent on the session just created, as the second
    provider call of the rerun, and the transcript is the new first reply,
    the user's message and, if the send succeeds, its reply; nothing of an
    earlier session is used. *)
Theorem generate_then_send_in_one_rerun
    (pv : Provider) (w : Widgets) (W : World) (r1 p : string) :
  generate_clicked w = true ->
  accepted w = true ->
  reply_of (pv (calls W) (chats W) (prompt_for w)) = Ok r1 ->
  submitted w = Some p ->
  messages (session_state (rerun pv w W))
  = Some ([assistant_says r1; user_says p]
          ++ match reply_of (pv (S (calls W)) (chats W) p) with
             | Ok r2 => [assistant_says r2]
             | Raise _ => []
             end)%list
  /\ gemini_chat (session_state (rerun pv w W)) = Some (chats W)
  /\ sent (output (rerun pv w W)) = [prompt_for w; p]
  /\ calls (rerun pv w W) = 2 + calls W.
Proof.
  intros Hclick Hacc Hr1 Hsub. unfold rerun. rewrite script_run.
  rewrite (generate_handler_ok w pv (clear_output W) r1 Hclick Hacc Hr1). cbn [snd].
  erewrite chat_interface_send; [|reflexivity|reflexivity|exact Hsub].
  cbn.
  destruct (reply_of (pv (S (calls W)) (chats W) p)) as [r2|e]; cbn;
    repeat split.
Qed.

Lemma generate_then_send_in_one_rerun_witness :
  messages (session_state
              (rerun answering cs101_and_quiz
                 (rerun answering quiz_me (rerun answering cs101 initial_world))))
  = Some [assistant_says "R2"; user_says "quiz me"; assistant_says "R2"]
  /\ gemini_chat (session_state
                    (rerun answering cs101_and_quiz
                       (rerun answering quiz_me (rerun answering cs101 initial_world))))
     = Some 1.
Proof.
  destruct (generate_then_send_in_one_rerun answering cs101_and_quiz
              (rerun answering quiz_me (rerun answering cs101 initial_world))
              "R2" "quiz me" eq_refl eq_refl)
    as (Hms & Hchat & _ & _); try (vm_compute; reflexivity).
  split; [rewrite Hms | rewrite Hchat]; vm_compute; reflexivity.
Defined.

(** ** Sending again after a failure *)

(** X12: the user's message of a failed send stays in the transcript, so
    sending the same text again, this time with success, leaves it there
    twice, before the reply. *)
Theorem retry_repeats_the_message
    (pv : Provider) (w : Widgets) (W : World) (ms : list Message)
    (c : Chat) (p r : string) (e : Exn) :
  generate_clicked w = false ->
  messages (session_state W) = Some ms ->
  gemini_chat (session_state W) = Some c ->
  submitted w = Some p ->
  reply_of (pv (calls W) c p) = Raise e ->
  reply_of (pv (S (calls W)) c p) = Ok r ->
  messages (session_state (rerun pv w (rerun pv w W)))
  = Some (ms ++ [user_says p; user_says p; assistant_says r])%list.
Proof.
  intros Hclick Hms Hchat Hsub Hfail Hok.
  assert (Hfirst : rerun pv w W
                   = {| session_state :=
                          {| gemini_chat := Some c;
                             messages := Some (ms ++ [user_says p])%list |};
                        output := (map shown ms
                                   ++ [st_chat_message user p; send_message c p;
                                       st_error_exn
                                         "An error occurred while communicating with the AI: " e])%list;
                        calls := S (calls W);
                        chats := chats W |}).
  { rewrite rerun_idle_generate by assumption.
    rewrite (chat_interface_send w pv (clear_output W) ms c p Hms Hchat Hsub).
    cbn. now rewrite Hfail. }
  rewrite Hfirst. rewrite rerun_idle_generate by assumption.
  erewrite chat_interface_send; [|reflexivity|reflexivity|exact Hsub].
  cbn. rewrite Hok. cbn. now rewrite <- app_assoc.
Qed.

Lemma retry_repeats_the_message_witness :
  messages (session_state
              (rerun flaky quiz_me (rerun flaky quiz_me (rerun flaky cs101 initial_world))))
  = Some ([R1_entry]
          ++ [user_says "quiz me"; user_says "quiz me"; assistant_says "R2"])%list.
Proof.
  apply (retry_repeats_the_message flaky quiz_me (rerun flaky cs101 initial_world)
           [R1_entry] 0 "quiz me" "R2" (ProviderError "network unreachable"));
    vm_compute; reflexivity.
Defined.

(** ** Provider calls *)

Lemma generate_handler_calls (w : Widgets) (pv : Provider) (W : World) :
  exists k,
    k <= 1
    /\ (generate_clicked w = false -> k = 0)
    /\ calls (snd (generate_handler w pv W)) = calls W + k
    /\ List.length (sent (output (snd (generate_handler w pv W))))
       = List.length (sent (output W)) + k.
Proof.
  destruct (generate_clicked w) eqn:Hclick.
  - destruct (accepted w) eqn:Hacc.
    + exists 1. destruct (generate_handler_sends w pv W Hclick Hacc) as [-> ->].
      rewrite length_app. cbn. repeat split; try lia; try discriminate.
    + exists 0. rewrite generate_handler_rejects by assumption. cbn.
      rewrite sent_app, length_app. cbn. repeat split; lia.
  - exists 0. rewrite generate_handler_idle by assumption. cbn.
    repeat split; lia.
Qed.

Lemma sent_shown (ms : list Message) : sent (map shown ms) = [].
Proof.
  induction ms as [|m ms IH]; [reflexivity | exact IH].
Qed.

Lemma chat_interface_calls (w : Widgets) (pv : Provider) (W : World) :
  exists k,
    k <= 1
    /\ calls (snd (chat_interface w pv W)) = calls W + k
    /\ List.length (sent (output (snd (chat_interface w pv W))))
       = List.length (sent (output W)) + k.
Proof.
  destruct (messages (session_state W)) as [ms|] eqn:Hms.
  - destruct (submitted w) as [p|] eqn:Hsub.
    + destruct (gemini_chat (session_state W)) as [c|] eqn:Hchat.
      * exists 1. rewrite (chat_interface_send _ _ _ _ _ _ Hms Hchat Hsub).
        destruct (reply_of _); cbn;
          rewrite !sent_app, sent_shown, !length_app; cbn; repeat split; lia.
      * exists 0. rewrite (chat_interface_no_session _ _ _ _ _ Hms Hchat Hsub). cbn.
        rewrite !sent_app, sent_shown, !length_app. cbn. repeat split; lia.
    + exists 0. rewrite (chat_interface_no_input _ _ _ _ Hms Hsub). cbn.
      rewrite sent_app, sent_shown, length_app. cbn. repeat split; lia.
  - exists 0. rewrite chat_interface_hidden by assumption. cbn.
    repeat split; lia.
Qed.

(** X13: the script never calls the provider again on its own.  A rerun
    makes at most two provider calls, at most one when the button is not
    clicked, and each of them is a [send_message] that the rerun shows in
    its events. *)
Theorem at_most_two_calls (pv : Provider) (w : Widgets) (W : World) :
  calls (rerun pv w W) = calls W + List.length (sent (output (rerun pv w W)))
  /\ List.length (sent (output (rerun pv w W))) <= 2
  /\ (generate_clicked w = false ->
      List.length (sent (output (rerun pv w W))) <= 1).
Proof.
  unfold rerun. rewrite script_run.
  destruct (generate_handler_calls w pv (clear_output W))
    as (k1 & Hk1 & Hidle & Hc1 & Hs1).
  destruct (chat_interface_calls w pv (snd (generate_handler w pv (clear_output W))))
    as (k2 & Hk2 & Hc2 & Hs2).
  cbn in Hc1, Hs1. rewrite Hc2, Hs2, Hc1, Hs1.
  repeat split; try lia. intros Hclick. specialize (Hidle Hclick). lia.
Qed.

Lemma at_most_two_calls_witness :
  calls (rerun answering cs101_and_quiz initial_world) = 2
  /\ List.length (sent (output (rerun answering quiz_me
                                  (rerun answering cs101 initial_world)))) <= 1.
Proof.
  destruct (at_most_two_calls answering cs101_and_quiz initial_world) as (Hcalls & _ & _).
  destruct (at_most_two_calls answering quiz_me (rerun answering cs101 initial_world))
    as (_ & _ & Hone).
  split; [rewrite Hcalls; vm_compute; reflexivity | apply Hone; reflexivity].
Defined.

(** ** The names of the uploads in the prompt *)

(** X14: the names are joined as they are, with no quoting.  A single
    upload whose name is two names around a comma and a space gives the
    prompt of the two uploads, and an upload named like the sentence for no
    upload gives the prompt of no upload: the prompt does not tell the
    uploads apart. *)
Theorem names_are_not_escaped (cn tl : string) :
  (forall (f g h : UploadedFile) (rest : list UploadedFile),
      name h = name f ++ ", " ++ name g ->
      final_prompt cn tl (h :: rest) = final_prompt cn tl (f :: g :: rest))
  /\ (forall f : UploadedFile,
         name f = no_files_placeholder ->
         final_prompt cn tl [f] = final_prompt cn tl []).
Proof.
  split.
  - intros f g h rest Hname. rewrite !final_prompt_eq. do 2 f_equal.
    cbn [map file_names_str]. rewrite Hname.
    destruct rest as [|r rest]; cbn [map join]; [reflexivity|].
    now rewrite !append_assoc.
  - intros f Hname. rewrite !final_prompt_eq. do 2 f_equal.
    cbn. exact Hname.
Qed.

Lemma names_are_not_escaped_witness :
  final_prompt "CS101" "Recursion" [a_b_txt]
  = final_prompt "CS101" "Recursion" [a_pdf; b_txt]
  /\ final_prompt "CS101" "Recursion" [misnamed]
     = final_prompt "CS101" "Recursion" [].
Proof.
  destruct (names_are_not_escaped "CS101" "Recursion") as [Hjoin Hnone].
  split; [apply Hjoin | apply Hnone]; reflexivity.
Defined.

(** ** The size of the prompt *)

Lemma length_append (a b : string) :
  String.length (a ++ b) = String.length a + String.length b.
Proof.
  induction a as [|ch a IH]; cbn; [reflexivity | now rewrite IH].
Qed.

Lemma template_text_length :
  String.length text_to_course + String.length text_course_to_files
  + String.length text_files_to_topics + String.length text_after_topics = 3160.
Proof. vm_compute. reflexivity. Qed.

Lemma join_length (sep : string) (parts : list string) :
  String.length (join sep parts)
  = total_length parts + String.length sep * (List.length parts - 1).
Proof.
  induction parts as [|p [|q rest] IH].
  - cbn. lia.
  - cbn. lia.
  - change (join sep (p :: q :: rest)) with (p ++ sep ++ join sep (q :: rest)).
    rewrite !length_append, IH. cbn [total_length List.length]. lia.
Qed.

(** X15: every field of the template is filled in once and nothing is cut:
    the prompt is as long as the 3160 characters of fixed text, the course
    name, the topic list and the text for the uploads together, which is 41
    characters with no upload and otherwise the names with two characters
    between neighbours. *)
Theorem prompt_length (cn tl : string) (files : list UploadedFile) :
  exists p : string,
    final_prompt cn tl files = Ok p
    /\ String.length p
       = 3160 + String.length cn + String.length tl
         + match files with
           | [] => 41
           | _ :: _ => total_length (map name files) + 2 * (List.length files - 1)
           end.
Proof.
  eexists. split; [apply final_prompt_eq|].
  unfold prompt_of. rewrite !length_append.
  pose proof template_text_length as Htext.
  assert (Hfiles : String.length (file_names_str (map name files))
                   = match files with
                     | [] => 41
                     | _ :: _ => total_length (map name files)
                                 + 2 * (List.length files - 1)
                     end).
  { destruct files as [|f rest]; [reflexivity|].
    unfold file_names_str. cbn [map]. rewrite join_length.
    cbn [List.length]. rewrite length_map. reflexivity. }
  rewrite Hfiles. lia.
Qed.
